(** * s3-sync-changes: change detection and upload planning

    A shallow embedding of [s3-sync-changes.py] and the properties of its
    fingerprint engine, tree walker, diff planner and upload step.

    Conventions of the embedding:
    - file contents are [list byte]; [hashlib.md5] is a parameter [md5]
      mapping bytes to the raw digest, [hexdigest] is [hexlify] of it;
    - Python's [None | str] is [option string];
    - the dictionary returned by [get_remote_etags] is a [gmap string string];
    - exceptions are the [Err] branch of [result]; what the program prints
      and the sub-processes it starts are recorded in a trace of [event]s;
    - the thread pool of [sync] is the list of the calls submitted to it,
      whose events any schedule may interleave; the lock makes each
      progress line one event; a pool without workers is refused with a
      [ValueError], as is a [read] of a size below -1. *)

From Stdlib Require Import ZArith Ascii List Lia Strings.Byte DecimalString.
From stdpp Require Import base gmap strings list.

Open Scope Z_scope.

(** ** Strings *)

Module Str.

(** [str.lstrip(c)] for a one-character argument. *)
Fixpoint lstrip (c : ascii) (s : string) : string :=
  match s with
  | EmptyString => EmptyString
  | String a s' => if Ascii.eqb a c then lstrip c s' else s
  end.

(** [str.rstrip(c)] for a one-character argument. *)
Fixpoint rstrip (c : ascii) (s : string) : string :=
  match s with
  | EmptyString => EmptyString
  | String a s' =>
      match rstrip c s' with
      | EmptyString => if Ascii.eqb a c then EmptyString else String a EmptyString
      | r => String a r
      end
  end.

(** [str.strip(c)]. *)
Definition strip (c : ascii) (s : string) : string := rstrip c (lstrip c s).

(** [str.replace(a, b)] for one-character arguments. *)
Fixpoint replace (a b : ascii) (s : string) : string :=
  match s with
  | EmptyString => EmptyString
  | String x s' => String (if Ascii.eqb x a then b else x) (replace a b s')
  end.

(** [sep.join(parts)]. *)
Fixpoint join (sep : string) (parts : list string) : string :=
  match parts with
  | [] => EmptyString
  | [p] => p
  | p :: ps => p +:+ sep +:+ join sep ps
  end.

(** [s.startswith(p)]. *)
Definition startswith (p s : string) : bool := String.prefix p s.

(** A string of [n] copies of [c]. *)
Fixpoint repeat (c : ascii) (n : nat) : string :=
  match n with
  | O => EmptyString
  | S k => String c (repeat c k)
  end.

(** Python's truthiness of a string: non-empty. *)
Definition truthy (s : string) : bool :=
  match s with EmptyString => false | _ => true end.

(** [str(n)] for a non-negative integer. *)
Definition of_nat (n : nat) : string :=
  NilZero.string_of_uint (Nat.to_uint n).

End Str.

Definition slash : ascii := "/"%char.
Definition backslash : ascii := "\"%char.
Definition dquote : ascii := ascii_of_nat 34.

(** ** Bytes and hex digests *)

Definition hex_digit (n : N) : ascii :=
  ascii_of_N (if (n <? 10)%N then 48 + n else 87 + n)%N.

Definition hex_byte (b : byte) : string :=
  let n := Byte.to_N b in
  String (hex_digit (n / 16)%N) (String (hex_digit (n mod 16)%N) EmptyString).

(** [bytes.hex()], which is what [hexdigest()] prints of [digest()]. *)
Fixpoint hexlify (bs : list byte) : string :=
  match bs with
  | [] => EmptyString
  | b :: bs' => hex_byte b +:+ hexlify bs'
  end.

(** ** Errors and effects *)

Definition Path := list string.

(** [str(path)]: the components joined by the separator. *)
Definition str_path (p : Path) : string := Str.join "/" p.

Inductive error :=
| IOError (p : Path)                       (* open()/read() failed *)
| CalledProcessError (cmd : list string)   (* subprocess.run(check=True) *)
| SystemExit (code : Z)                    (* sys.exit *)
| ValueError                               (* a size or count out of range *)
| Unterminated.                            (* the loop model ran out of fuel *)

Inductive result (A : Type) :=
| Ok (a : A)
| Err (e : error).
Arguments Ok {A} a.
Arguments Err {A} e.

Inductive event :=
| Printed (line : string)                  (* print(f"...") *)
| PrintedRepr (cmd : list string)          (* print(cmd): the list's repr *)
| Run (cmd : list string).                 (* subprocess.run(cmd, ...) *)

(** A computation prints and runs things, then returns or raises. *)
Definition M (A : Type) : Type := list event * result A.

Definition ret {A} (a : A) : M A := ([], Ok a).
Definition raise {A} (e : error) : M A := ([], Err e).
Definition emit (ev : event) : M unit := ([ev], Ok tt).
Definition lift {A} (r : result A) : M A := ([], r).
Definition bind {A B} (m : M A) (k : A → M B) : M B :=
  match m with
  | (t, Ok a) => let '(t', r) := k a in (t ++ t', r)
  | (t, Err e) => (t, Err e)
  end.

Notation "'let*' x ':=' m 'in' k" := (bind m (fun x => k))
  (at level 10, x name, m at level 100, k at level 200).

Definition when (b : bool) (m : M unit) : M unit := if b then m else ret tt.

(** ** The file system seen by the walker *)

#[local] Set Warnings "-register-all".

(** A directory as [os.walk] lists it: its name, its sub-directories and
    the names of its files. *)
Inductive dirtree :=
| Dir (name : string) (subdirs : list dirtree) (fnames : list string).

Definition dir_name (t : dirtree) : string :=
  match t with Dir name _ _ => name end.

(** What [Path.exists()] and [Path.is_file()] find at a path. *)
Inductive fsnode :=
| IsFile
| IsDir (t : dirtree).

Section Program.

(** ** 4.1 Fingerprint engine: [get_local_etag] *)

(** [hashlib.md5(data).digest()]. *)
Variable md5 : list byte → list byte.

(** [open(path, "rb")] and the bytes behind it; [None] when the file
    cannot be opened or read. *)
Variable open_rb : Path → option (list byte).

(** [f.read(n)] on the unread rest of a file: the data returned and the
    rest left.  The size -1 reads everything; a size below -1 is refused
    with a [ValueError]. *)
Definition read (chunk_size : Z) (rest : list byte) : result (list byte * list byte) :=
  if chunk_size <? -1 then Err ValueError
  else if chunk_size <? 0 then Ok (rest, [])
  else Ok (take (Z.to_nat chunk_size) rest, drop (Z.to_nat chunk_size) rest).

(** The [while True] loop of [get_local_etag]; [None] when the fuel runs
    out before the loop reaches its [break] or an exception. *)
Fixpoint read_loop (fuel : nat) (chunk_size : Z) (rest : list byte)
    (md5s : list (list byte)) : option (result (list (list byte))) :=
  match fuel with
  | O => None
  | S fuel' =>
      match read chunk_size rest with
      | Err e => Some (Err e)
      | Ok (data, rest') =>
          match data with
          | [] => Some (Ok md5s)
          | _ :: _ => read_loop fuel' chunk_size rest' (md5s ++ [md5 data])
          end
      end
  end.

Definition default_chunk_size : Z := 8 * 1024 * 1024.

Definition get_local_etag (path : Path) (chunk_size : Z) : result (option string) :=
  match open_rb path with
  | None => Err (IOError path)
  | Some content =>
      match read_loop (S (length content)) chunk_size content [] with
      | None => Err Unterminated
      | Some (Err e) => Err e
      | Some (Ok md5s) =>
          match md5s with
          | [] => Ok None
          | [_] =>
              match open_rb path with
              | None => Err (IOError path)
              | Some whole => Ok (Some (hexlify (md5 whole)))
              end
          | _ =>
              let digests := concat md5s in
              Ok (Some (hexlify (md5 digests) +:+ "-" +:+ Str.of_nat (length md5s)))
          end
      end
  end.


(** ** 4.3 Remote state lister: [get_remote_etags] *)

(** [subprocess.run(cmd, check=True)] of the listing command followed by
    [json.loads] and [data.get("Contents", [])]: the [(Key, ETag)] pairs of
    the listed objects, or [None] when the command fails. *)
Variable s3api_list : list string → option (list (string * string)).

Definition list_cmd (bucket prefix : string) : list string :=
  let cmd := ["aws"; "s3api"; "list-objects-v2"; "--bucket"; bucket; "--output"; "json"] in
  if Str.truthy prefix then cmd ++ ["--prefix"; prefix] else cmd.

(** The [for obj in objects] loop filling the dictionary. *)
Fixpoint fill_etags (objects : list (string * string)) (etags : gmap string string)
    : gmap string string :=
  match objects with
  | [] => etags
  | (key, etag) :: rest => fill_etags rest (<[key := Str.strip dquote etag]> etags)
  end.

Definition get_remote_etags (bucket prefix : string) : M (gmap string string) :=
  let cmd := list_cmd bucket prefix in
  let* _ := emit (Run cmd) in
  match s3api_list cmd with
  | None => raise (CalledProcessError cmd)
  | Some objects => ret (fill_etags objects ∅)
  end.

(** ** 4.5 One upload: [upload_file] *)

Definition put_cmd (bucket key : string) (path : Path) (acl : option string) : list string :=
  let cmd := ["aws"; "s3api"; "put-object"; "--bucket"; bucket; "--key"; key;
              "--body"; str_path path] in
  match acl with
  | Some a => if Str.truthy a then cmd ++ ["--acl"; a] else cmd
  | None => cmd
  end.

Definition uploaded_line (idx total : nat) (key : string) : string :=
  "[" +:+ Str.of_nat idx +:+ "/" +:+ Str.of_nat total +:+ "] Uploaded " +:+ key.

(** The call of [subprocess.run(cmd, check=True)] under [if not dryrun] is
    commented out in the source, so neither [dryrun] nor the command
    reaches a sub-process. *)
Definition upload_file (bucket key : string) (path : Path) (idx total : nat)
    (acl : option string) (dryrun verbose : bool) : M unit :=
  let cmd := put_cmd bucket key path acl in
  let* _ := when verbose (emit (PrintedRepr cmd)) in
  emit (Printed (uploaded_line idx total key)).

(** ** [parse_s3_dest] *)

(** [s.split("/", 1)] when the separator occurs in [s]. *)
Fixpoint split_once (c : ascii) (s : string) : option (string * string) :=
  match s with
  | EmptyString => None
  | String a s' =>
      if Ascii.eqb a c then Some (EmptyString, s')
      else match split_once c s' with
           | Some (l, r) => Some (String a l, r)
           | None => None
           end
  end.

Fixpoint drop_chars (n : nat) (s : string) : string :=
  match n, s with
  | S k, String _ s' => drop_chars k s'
  | _, _ => s
  end.

Definition parse_s3_dest (dest : string) : M (string * string) :=
  if negb (Str.startswith "s3://" dest) then
    let* _ := emit (Printed "Destination must start with s3://") in
    raise (SystemExit 1)
  else
    let dest_path := drop_chars 5 dest in
    match split_once slash dest_path with
    | Some (bucket, prefix) => ret (bucket, prefix)
    | None => ret (dest_path, EmptyString)
    end.

(** ** 4.2 Tree walker: [is_excluded], [discover_files] *)

(** [fnmatch.fnmatch(name, pattern)]. *)
Variable fnmatch : string → string → bool.

Fixpoint is_excluded (rel_key : string) (excludes : list string) : bool :=
  match excludes with
  | [] => false
  | pattern :: rest => if fnmatch rel_key pattern then true else is_excluded rel_key rest
  end.

(** [p.relative_to(base)]; [None] stands for the [ValueError] of a path
    that is not below [base]. *)
Fixpoint relative_to (p base : Path) : option Path :=
  match base, p with
  | [], _ => Some p
  | b :: base', x :: p' => if decide (x = b) then relative_to p' base' else None
  | _ :: _, [] => None
  end.

(** [str(p.relative_to(source_path)).replace("\\", "/")] for the path
    [p = source_path / rel], of which [relative_to] returns [rel] (see
    [relative_to_app]). *)
Definition rel_key_of (rel : Path) : string :=
  Str.replace backslash slash (str_path rel).

(** [os.walk(top)], top-down.  [body] is one round of the consumer's
    [for root, dirs, fnames in ...] loop: it sees the directory (as the
    path [rel] below [top]), returns what it leaves in the list [dirs],
    which it shares with the generator, and what it produces.  The
    generator then descends into the sub-directories still in [dirs]; the
    body of [discover_files] only removes names, so they come in the
    order of the directory. *)
Section Walk.
Context {A : Type}.
Variable body : Path → list string → list string → list string * list A.

Fixpoint os_walk (rel : Path) (t : dirtree) : list A :=
  match t with
  | Dir _ subdirs fnames =>
      let '(dirs, out) := body rel (map dir_name subdirs) fnames in
      out ++
      (fix descend (l : list dirtree) : list A :=
         match l with
         | [] => []
         | sub :: l' =>
             (if bool_decide (dir_name sub ∈ dirs)
              then os_walk (rel ++ [dir_name sub]) sub else [])
             ++ descend l'
         end) subdirs
  end.
End Walk.

(** One directory visited by [discover_files]: where, and the files
    appended to [files] there. *)
Definition visit : Type := Path * list (string * Path).

(** The entry appended for the file [fname] of the directory [rel], unless
    its key is excluded. *)
Definition file_entry (source_path : Path) (excludes : list string)
    (rel : Path) (fname : string) : option (string * Path) :=
  let path := source_path ++ rel ++ [fname] in
  let rel_key := rel_key_of (rel ++ [fname]) in
  if is_excluded rel_key excludes then None else Some (rel_key, path).

(** The body of the loop over [os.walk] in [discover_files]: the slice
    assignment to [dirs], then the loop over [fnames]. *)
Definition discover_body (source_path : Path) (excludes : list string)
    (rel : Path) (dirs fnames : list string) : list string * list visit :=
  let dirs' :=
    filter (λ d, is_excluded (rel_key_of (rel ++ [d])) excludes = false) dirs in
  (dirs', [(rel, omap (file_entry source_path excludes rel) fnames)]).

Definition discover_visits (source_path : Path) (excludes : list string)
    (t : dirtree) : list visit :=
  os_walk (discover_body source_path excludes) [] t.

(** [Path.name]: the last component. *)
Definition path_name (p : Path) : string := List.last p EmptyString.

Definition discover_files (source_path : Path) (node : fsnode)
    (excludes : list string) : list (string * Path) :=
  match node with
  | IsFile =>
      let rel_key := path_name source_path in
      if is_excluded rel_key excludes then [] else [(rel_key, source_path)]
  | IsDir t => concat (map snd (discover_visits source_path excludes t))
  end.

(** ** 4.4 Diff planner: [plan_uploads] *)

(** The destination key of a local entry. *)
Definition dest_key (prefix rel_key : string) : string :=
  let key := if Str.truthy prefix then prefix +:+ "/" +:+ rel_key else rel_key in
  Str.lstrip slash key.

(** How an f-string prints a value that is [None] or a string. *)
Definition fmt_etag (e : option string) : string :=
  match e with Some s => s | None => "None" end.

Definition scheduling_line (key : string) (local_etag remote_etag : option string) : string :=
  "Scheduling upload: " +:+ key +:+ " (local etag: " +:+ fmt_etag local_etag
    +:+ ", remote etag: " +:+ fmt_etag remote_etag +:+ ")".

(** The [for rel_key, path in files] loop, [to_upload] being the list
    built so far. *)
Fixpoint plan_loop (files : list (string * Path)) (prefix : string) (verbose : bool)
    (remote_etags : gmap string string) (to_upload : list (string * Path))
    : M (list (string * Path)) :=
  match files with
  | [] => ret to_upload
  | (rel_key, path) :: rest =>
      let key := dest_key prefix rel_key in
      let* local_etag := lift (get_local_etag path default_chunk_size) in
      let remote_etag := remote_etags !! key in
      if bool_decide (local_etag ≠ remote_etag) then
        let* _ := when verbose
                    (emit (Printed (scheduling_line key local_etag remote_etag))) in
        plan_loop rest prefix verbose remote_etags (to_upload ++ [(key, path)])
      else
        plan_loop rest prefix verbose remote_etags to_upload
  end.

Definition plan_uploads (files : list (string * Path)) (bucket prefix : string)
    (verbose : bool) : M (list (string * Path)) :=
  let* remote_etags := get_remote_etags bucket prefix in
  plan_loop files prefix verbose remote_etags [].

(** ** [sync] *)

(** [Path(source)]. *)
Variable path_of : string → Path.

(** What is at a path; [None] when nothing is. *)
Variable stat : Path → option fsnode.

(** One call [executor.submit(upload_file, bucket, key, path, i + 1,
    total, lock, acl, dryrun, verbose)], by its arguments. *)
Record upload_call := {
  u_bucket : string;
  u_key : string;
  u_path : Path;
  u_idx : nat;
  u_total : nat;
  u_acl : option string;
  u_dryrun : bool;
  u_verbose : bool
}.

Definition run_call (c : upload_call) : M unit :=
  upload_file (u_bucket c) (u_key c) (u_path c) (u_idx c) (u_total c)
              (u_acl c) (u_dryrun c) (u_verbose c).

(** The calls submitted to the executor, in submission order:
    [enumerate(to_upload)] numbers them from [i = 0]. *)
Fixpoint submit_from (i : nat) (bucket : string) (total : nat) (acl : option string)
    (dryrun verbose : bool) (to_upload : list (string * Path)) : list upload_call :=
  match to_upload with
  | [] => []
  | (key, path) :: rest =>
      {| u_bucket := bucket; u_key := key; u_path := path; u_idx := i + 1;
         u_total := total; u_acl := acl; u_dryrun := dryrun; u_verbose := verbose |}
      :: submit_from (S i) bucket total acl dryrun verbose rest
  end.

(** [ThreadPoolExecutor(max_workers=workers)], which refuses a pool
    without workers. *)
Definition thread_pool (workers : Z) : M unit :=
  if workers <=? 0 then raise ValueError else ret tt.

(** [sync] up to the executor: what it prints and runs itself, and the
    calls it hands to the thread pool.  The pool runs them in an order of
    its own; see [sync_trace]. *)
Definition sync (source dest : string) (workers : Z) (acl : option string)
    (dryrun : bool) (excludes : list string) (verbose : bool) : M (list upload_call) :=
  let* bp := parse_s3_dest dest in
  let '(bucket, prefix) := bp in
  let source_path := path_of source in
  match stat source_path with
  | None =>
      let* _ := emit (Printed ("Source path does not exist: " +:+ source)) in
      raise (SystemExit 1)
  | Some node =>
      let files := discover_files source_path node excludes in
      let* to_upload := plan_uploads files bucket prefix verbose in
      let total := length to_upload in
      if (total =? 0)%nat then
        let* _ := emit (Printed "All files are up to date.") in
        ret []
      else
        let* _ := emit (Printed ("Uploading " +:+ Str.of_nat total +:+ " files...")) in
        let* _ := thread_pool workers in
        ret (submit_from 0 bucket total acl dryrun verbose to_upload)
  end.

End Program.

(** The events of several jobs merged in some order that keeps each job's
    own order. *)
Inductive interleave : list (list event) → list event → Prop :=
| interleave_done jobs :
    Forall (λ j, j = []) jobs → interleave jobs []
| interleave_step jobs1 ev j jobs2 tr :
    interleave (jobs1 ++ j :: jobs2) tr →
    interleave (jobs1 ++ (ev :: j) :: jobs2) (ev :: tr).

(** A trace [sync] can leave behind: its own events, then those of the
    submitted calls as the pool schedules them. *)
Definition sync_trace (run : M (list upload_call)) (tr : list event) : Prop :=
  match run with
  | (t, Ok calls) =>
      ∃ sched, interleave (map (λ c, fst (run_call c)) calls) sched ∧ tr = t ++ sched
  | (t, Err _) => tr = t
  end.

(** * Specification-side definitions *)

(** ** The chunks of a file *)

(** The [i]-th window of [cs] bytes of [data], counting from 0. *)
Definition nth_chunk (cs : nat) (data : list byte) (i : nat) : list byte :=
  take cs (drop (i * cs) data).

(** The number of windows of [cs] bytes that cover [len] bytes. *)
Definition chunk_count (cs len : nat) : nat := (len + cs - 1) / cs.

Definition chunks (cs : nat) (data : list byte) : list (list byte) :=
  map (nth_chunk cs data) (seq 0 (chunk_count cs (length data))).

(** ** The tree below the source directory *)

(** [dir_at t rel t']: the directory [t'] is found in [t] under the
    relative path [rel]. *)
Inductive dir_at : dirtree → Path → dirtree → Prop :=
| dir_at_here t : dir_at t [] t
| dir_at_sub name subdirs fnames sub rel t' :
    sub ∈ subdirs → dir_at sub rel t' →
    dir_at (Dir name subdirs fnames) (dir_name sub :: rel) t'.

(** [file_in t rel]: a file is found in [t] under the relative path [rel]. *)
Definition file_in (t : dirtree) (rel : Path) : Prop :=
  ∃ d fname name subdirs fnames,
    rel = d ++ [fname] ∧ dir_at t d (Dir name subdirs fnames) ∧ fname ∈ fnames.

(** Neither the path [rel] nor a directory above it, below the directory
    [base] of the source, has an excluded key. *)
Definition kept (fnmatch : string → string → bool) (excludes : list string)
    (base rel : Path) : Prop :=
  ∀ q, q ≠ [] → q `prefix_of` rel →
       is_excluded fnmatch (rel_key_of (base ++ q)) excludes = false.

(** ** The plan as a function of the remote state *)

(** The first file of the walk that cannot be read, if any. *)
Fixpoint first_unreadable (open_rb : Path → option (list byte))
    (files : list (string * Path)) : option Path :=
  match files with
  | [] => None
  | (_, path) :: rest =>
      match open_rb path with
      | None => Some path
      | Some _ => first_unreadable open_rb rest
      end
  end.

(** The entry of the plan a local file gives rise to: one when its
    fingerprint is not what the remote state has under its key. *)
Definition changed (md5 : list byte → list byte) (open_rb : Path → option (list byte))
    (prefix : string) (remote_etags : gmap string string) (entry : string * Path)
    : option (string * Path) :=
  let key := dest_key prefix entry.1 in
  match get_local_etag md5 open_rb entry.2 default_chunk_size with
  | Ok local_etag =>
      if bool_decide (local_etag ≠ remote_etags !! key) then Some (key, entry.2) else None
  | Err _ => None
  end.

(** ** The lines of a verbose plan *)

(** The line [plan_uploads] prints, when verbose, for a planned entry. *)
Definition planned_line (md5 : list byte → list byte)
    (open_rb : Path → option (list byte)) (remote_etags : gmap string string)
    (entry : string * Path) : event :=
  let local_etag :=
    match get_local_etag md5 open_rb entry.2 default_chunk_size with
    | Ok etag => etag
    | Err _ => None
    end in
  Printed (scheduling_line entry.1 local_etag (remote_etags !! entry.1)).

(** ** The sub-processes of a run *)

(** An event that starts no sub-process other than the listing. *)
Definition only_lists (ev : event) : Prop :=
  ∀ cmd, ev = Run cmd → ∃ bucket prefix, cmd = list_cmd bucket prefix.

(** ** The remote state after a run *)

(** The listing of the bucket once the uploads of a plan are stored: each
    uploaded object is listed again, under its key, with the ETag
    [store_etag] the store gives its content.  [fill_etags] lets the later
    entry of a key win. *)
Definition listing_after (store_etag : list byte → string)
    (open_rb : Path → option (list byte)) (to_upload : list (string * Path))
    (objects : list (string * string)) : list (string * string) :=
  objects ++
  omap (λ entry : string * Path,
          match open_rb entry.2 with
          | Some content => Some (entry.1, store_etag content)
          | None => None
          end)
       to_upload.

(** ** Characters of a string *)

(** Whether the character [c] occurs in [s]: Python's [c in s]. *)
Fixpoint contains_char (c : ascii) (s : string) : bool :=
  match s with
  | EmptyString => false
  | String a s' => if Ascii.eqb a c then true else contains_char c s'
  end.

(** The value of a lower-case hexadecimal digit. *)
Definition unhex_digit (c : ascii) : option N :=
  let n := N_of_ascii c in
  if ((48 <=? n) && (n <? 58))%N then Some (n - 48)%N
  else if ((97 <=? n) && (n <? 103))%N then Some (n - 87)%N
  else None.

(** [bytes.fromhex], the inverse of [hexlify]. *)
Fixpoint unhexlify (s : string) : option (list byte) :=
  match s with
  | EmptyString => Some []
  | String c1 (String c2 s') =>
      match unhex_digit c1, unhex_digit c2, unhexlify s' with
      | Some hi, Some lo, Some bs =>
          match Byte.of_N (16 * hi + lo) with
          | Some b => Some (b :: bs)
          | None => None
          end
      | _, _, _ => None
      end
  | String _ EmptyString => None
  end.

(** ** A small world to run the program in *)

Module Demo.

(** A stand-in for MD5: the length of the data and its first byte. *)
Definition md5 (bs : list byte) : list byte :=
  from_option (λ b, [b]) [] (Byte.of_nat (length bs)) ++ take 1 bs.

Definition a : byte := Byte.x61.

(** Three files: an empty one, a small one and a longer one. *)
Definition open_rb (p : Path) : option (list byte) :=
  if decide (p = ["r"; "e.txt"]) then Some []
  else if decide (p = ["r"; "a.txt"]) then Some [a; a; a]
  else if decide (p = ["r"; "big"]) then Some [a; a; a; a; a; a; a]
  else None.

(** A bucket that lists no object, and one that cannot be listed. *)
Definition empty_bucket (cmd : list string) : option (list (string * string)) :=
  Some [].
Definition unreachable_bucket (cmd : list string) : option (list (string * string)) :=
  None.

(** Patterns without wildcards: a name matches itself. *)
Definition fnmatch (name pattern : string) : bool := bool_decide (name = pattern).

(** [Path(source)] for a source without separators. *)
Definition path_of (source : string) : Path := [source].

(** A bucket that already lists [e.txt] with the ETag S3 gives a
    zero-byte object, in the quotes of the listing. *)
Definition quoted (etag : string) : string :=
  String dquote (etag +:+ String dquote EmptyString).
Definition listing_with_empty : list (string * string) :=
  [("e.txt", quoted "d41d8cd98f00b204e9800998ecf8427e")].

(** A source tree with nested directories. *)
Definition tree : dirtree :=
  Dir "r" [Dir "x" [Dir "y" [] ["f"]] ["g"; "h"]; Dir "z" [] ["k"]] ["top"].

(** The directory [r] holds the three files and a file [q] that cannot
    be read; nothing else exists. *)
Definition stat (p : Path) : option fsnode :=
  if decide (p = ["r"]) then Some (IsDir (Dir "r" [] ["q"; "a.txt"; "e.txt"]))
  else None.

End Demo.

(** * Properties *)

Lemma chunk_count_0 cs : chunk_count cs 0 = 0%nat.
Proof.
  unfold chunk_count. destruct cs as [|c]; [reflexivity|].
  apply Nat.div_small. lia.
Qed.

Lemma chunk_count_step cs len :
  (0 < cs)%nat → (0 < len)%nat → chunk_count cs len = S (chunk_count cs (len - cs)).
Proof.
  intros Hcs Hlen. unfold chunk_count.
  destruct (decide (len ≤ cs)%nat) as [Hle|Hgt].
  - replace (len - cs)%nat with 0%nat by lia.
    rewrite (Nat.div_small (0 + cs - 1) cs) by lia.
    symmetry. apply (Nat.div_unique _ _ 1 (len - 1)); lia.
  - replace (len + cs - 1)%nat with ((len - cs + cs - 1) + 1 * cs)%nat by lia.
    rewrite Nat.div_add by lia. lia.
Qed.

Lemma chunk_count_small cs len :
  (0 < len)%nat → (len ≤ cs)%nat → chunk_count cs len = 1%nat.
Proof.
  intros Hlen Hle. rewrite chunk_count_step by lia.
  replace (len - cs)%nat with 0%nat by lia. by rewrite chunk_count_0.
Qed.

Lemma chunk_count_large cs len :
  (0 < cs)%nat → (cs < len)%nat → (1 < chunk_count cs len)%nat.
Proof.
  intros Hcs Hlt. rewrite chunk_count_step by lia.
  rewrite (chunk_count_step cs (len - cs)) by lia. lia.
Qed.

Lemma nth_chunk_0 cs data : nth_chunk cs data 0 = take cs data.
Proof. reflexivity. Qed.

Lemma nth_chunk_S cs data i :
  nth_chunk cs data (S i) = nth_chunk cs (drop cs data) i.
Proof.
  unfold nth_chunk. rewrite drop_drop. repeat f_equal; lia.
Qed.

Lemma chunks_nil cs : chunks cs [] = [].
Proof. unfold chunks. simpl. by rewrite chunk_count_0. Qed.

Lemma chunks_cons cs data :
  (0 < cs)%nat → data ≠ [] → chunks cs data = take cs data :: chunks cs (drop cs data).
Proof.
  intros Hcs Hne. unfold chunks.
  assert (0 < length data)%nat by (destruct data; [done | simpl; lia]).
  rewrite chunk_count_step by done.
  rewrite length_drop. simpl. f_equal.
  rewrite <- seq_shift, map_map.
  apply map_ext. intros i. apply nth_chunk_S.
Qed.

(** The chunks put the file back together. *)
Lemma concat_chunks cs data : (0 < cs)%nat → concat (chunks cs data) = data.
Proof.
  intros Hcs.
  remember (length data) as n eqn:Hn.
  revert data Hn. induction (lt_wf n) as [n _ IH]. intros data ->.
  destruct data as [|b data]; [by rewrite chunks_nil|].
  rewrite chunks_cons by done. simpl concat.
  rewrite (IH (length (drop cs (b :: data)))); [apply take_drop | | done].
  rewrite length_drop. simpl. lia.
Qed.

Section FingerprintProperties.

Variable md5 : list byte → list byte.
Variable open_rb : Path → option (list byte).

Lemma read_nonneg (cs : nat) rest :
  read (Z.of_nat cs) rest = Ok (take cs rest, drop cs rest).
Proof.
  unfold read.
  destruct (Z.ltb_spec (Z.of_nat cs) (-1)) as [?|_]; [lia|].
  destruct (Z.ltb_spec (Z.of_nat cs) 0) as [?|_]; [lia|].
  by rewrite Nat2Z.id.
Qed.

Lemma read_all rest : read (-1) rest = Ok (rest, []).
Proof. reflexivity. Qed.

Lemma read_invalid cs rest : cs < -1 → read cs rest = Err ValueError.
Proof.
  intros Hcs. unfold read. by destruct (Z.ltb_spec cs (-1)) as [_|?]; [|lia].
Qed.

Lemma read_loop_pos fuel (cs : nat) rest md5s :
  (0 < cs)%nat → (length rest < fuel)%nat →
  read_loop md5 fuel (Z.of_nat cs) rest md5s
    = Some (Ok (md5s ++ map md5 (chunks cs rest))).
Proof.
  intros Hcs. revert rest md5s.
  induction fuel as [|fuel IH]; intros rest md5s Hfuel; [lia|].
  cbn [read_loop]. rewrite read_nonneg.
  destruct rest as [|b rest].
  - rewrite take_nil, chunks_nil. simpl. by rewrite app_nil_r.
  - destruct cs as [|c]; [lia|].
    rewrite (chunks_cons (S c) (b :: rest)) by (done || lia).
    change (take (S c) (b :: rest)) with (b :: take c rest).
    cbv beta iota. rewrite IH.
    + by rewrite <- app_assoc.
    + rewrite length_drop. simpl in *. lia.
Qed.

Lemma read_loop_neg fuel rest md5s :
  (length rest < fuel)%nat →
  read_loop md5 fuel (-1) rest md5s =
    Some (Ok (md5s ++ match rest with [] => [] | _ => [md5 rest] end)).
Proof.
  intros Hfuel.
  destruct fuel as [|fuel]; [lia|]. cbn [read_loop]. rewrite read_all.
  destruct rest as [|b rest]; [by rewrite app_nil_r|].
  destruct fuel as [|fuel]; [simpl in Hfuel; lia|]. reflexivity.
Qed.

Lemma read_loop_zero fuel rest md5s :
  (0 < fuel)%nat → read_loop md5 fuel 0 rest md5s = Some (Ok md5s).
Proof. intros Hfuel. destruct fuel; [lia|]. reflexivity. Qed.

Lemma read_loop_invalid fuel cs rest md5s :
  cs < -1 → (0 < fuel)%nat → read_loop md5 fuel cs rest md5s = Some (Err ValueError).
Proof.
  intros Hcs Hfuel. destruct fuel; [lia|]. cbn [read_loop].
  by rewrite read_invalid.
Qed.

(** The loop always reaches its [break] or an exception. *)
Lemma read_loop_total cs rest md5s :
  is_Some (read_loop md5 (S (length rest)) cs rest md5s).
Proof.
  destruct (Z.lt_trichotomy cs 0) as [Hneg|[->|Hpos]].
  - destruct (decide (cs = -1)) as [->|Hne].
    + rewrite read_loop_neg by lia. eauto.
    + rewrite read_loop_invalid by lia. eauto.
  - rewrite read_loop_zero by lia. eauto.
  - rewrite <- (Z2Nat.id cs) by lia.
    rewrite read_loop_pos by lia. eauto.
Qed.

(** With a valid chunk size the loop reaches its [break]. *)
Lemma read_loop_breaks cs rest md5s :
  -1 ≤ cs →
  ∃ md5s', read_loop md5 (S (length rest)) cs rest md5s = Some (Ok md5s').
Proof.
  intros Hcs. destruct (Z.lt_trichotomy cs 0) as [Hneg|[->|Hpos]].
  - assert (cs = -1) as -> by lia. rewrite read_loop_neg by lia. eauto.
  - rewrite read_loop_zero by lia. eauto.
  - rewrite <- (Z2Nat.id cs) by lia.
    rewrite read_loop_pos by lia. eauto.
Qed.

Lemma default_chunk_size_valid : -1 ≤ default_chunk_size.
Proof. done. Qed.

Lemma get_local_etag_unreadable path cs :
  open_rb path = None → get_local_etag md5 open_rb path cs = Err (IOError path).
Proof. intros H. unfold get_local_etag. by rewrite H. Qed.


Lemma get_local_etag_empty path cs :
  open_rb path = Some [] → -1 ≤ cs → get_local_etag md5 open_rb path cs = Ok None.
Proof.
  intros H Hcs. unfold get_local_etag. rewrite H.
  destruct (Z.lt_trichotomy cs 0) as [Hneg|[->|Hpos]].
  - assert (cs = -1) as -> by lia. by rewrite read_loop_neg by (simpl; lia).
  - by rewrite read_loop_zero by lia.
  - rewrite <- (Z2Nat.id cs) by lia.
    by rewrite read_loop_pos, chunks_nil by (simpl; lia).
Qed.

(** The fingerprint for a positive chunk size, by the number of chunks. *)
Lemma get_local_etag_pos path (cs : nat) content :
  open_rb path = Some content → (0 < cs)%nat →
  get_local_etag md5 open_rb path (Z.of_nat cs) =
    Ok (match chunk_count cs (length content) with
        | 0%nat => None
        | 1%nat => Some (hexlify (md5 content))
        | n => Some (hexlify (md5 (concat (map md5 (chunks cs content))))
                     +:+ "-" +:+ Str.of_nat n)
        end).
Proof.
  intros Hopen Hcs. unfold get_local_etag. rewrite Hopen.
  rewrite read_loop_pos by lia. rewrite app_nil_l.
  assert (length (map md5 (chunks cs content)) = chunk_count cs (length content)) as Hlen.
  { unfold chunks. by rewrite !length_map, length_seq. }
  destruct (map md5 (chunks cs content)) as [|d1 [|d2 ds]] eqn:Hmd5s;
    simpl in Hlen; rewrite <- Hlen; done.
Qed.

(** The fingerprint for the chunk size -1, with which the first [read]
    returns the whole file. *)
Lemma get_local_etag_whole path content :
  open_rb path = Some content → content ≠ [] →
  get_local_etag md5 open_rb path (-1) = Ok (Some (hexlify (md5 content))).
Proof.
  intros Hopen Hne. unfold get_local_etag.
  rewrite Hopen, read_loop_neg by lia. by destruct content.
Qed.

(** A file with at least one byte never gets the fingerprint [None],
    whatever the chunk size that [read] accepts, 0 apart. *)
Lemma get_local_etag_nonempty path cs content :
  open_rb path = Some content → content ≠ [] → cs ≠ 0 → -1 ≤ cs →
  ∃ etag, get_local_etag md5 open_rb path cs = Ok (Some etag).
Proof.
  intros Hopen Hne Hcs Hvalid.
  destruct (Z.lt_trichotomy cs 0) as [Hneg|[->|Hpos]]; [| done |].
  - assert (cs = -1) as -> by lia. rewrite (get_local_etag_whole _ content) by done.
    eauto.
  - rewrite <- (Z2Nat.id cs) by lia.
    rewrite (get_local_etag_pos _ _ content) by (done || lia).
    assert (0 < length content)%nat by (destruct content; [done | simpl; lia]).
    rewrite chunk_count_step by lia.
    destruct (chunk_count _ _); eauto.
Qed.


(** With a chunk size that [read] accepts, [get_local_etag] raises only
    [IOError], and only for an unreadable file. *)
Lemma get_local_etag_cases path cs :
  -1 ≤ cs →
  match open_rb path with
  | None => get_local_etag md5 open_rb path cs = Err (IOError path)
  | Some _ => ∃ etag, get_local_etag md5 open_rb path cs = Ok etag
  end.
Proof.
  intros Hcs.
  destruct (open_rb path) as [content|] eqn:Hopen;
    [|by apply get_local_etag_unreadable].
  unfold get_local_etag. rewrite Hopen.
  destruct (read_loop_breaks cs content [] Hcs) as [md5s ->].
  destruct md5s as [|? [|? ?]]; eauto.
Qed.

End FingerprintProperties.

(** ** Claims about the fingerprint engine *)

(** C3: a file of [n > 1] chunks of the given size has the fingerprint
    hex(md5(d_1 ++ ... ++ d_n)) followed by "-" and the decimal [n], where
    [d_i] is the raw digest of the [i]-th chunk; a non-empty file read in
    exactly one chunk has the hex digest of the whole file. *)
Theorem get_local_etag_by_chunks md5 open_rb path (cs : Z) content :
  open_rb path = Some content → 0 < cs →
  (∀ n, chunk_count (Z.to_nat cs) (length content) = n → (1 < n)%nat →
     get_local_etag md5 open_rb path cs =
       Ok (Some (hexlify (md5 (concat (map (λ i, md5 (nth_chunk (Z.to_nat cs) content i))
                                           (seq 0 n))))
                 +:+ "-" +:+ Str.of_nat n)))
  ∧ (chunk_count (Z.to_nat cs) (length content) = 1%nat →
     get_local_etag md5 open_rb path cs = Ok (Some (hexlify (md5 content)))).
Proof.
  intros Hopen Hcs.
  assert (get_local_etag md5 open_rb path cs
          = get_local_etag md5 open_rb path (Z.of_nat (Z.to_nat cs))) as ->
    by (by rewrite Z2Nat.id by lia).
  rewrite (get_local_etag_pos md5 open_rb path (Z.to_nat cs) content) by (done || lia).
  split.
  - intros n Hn Hlt. rewrite Hn. unfold chunks. rewrite Hn, map_map.
    destruct n as [|[|n]]; [lia | lia | done].
  - intros ->. done.
Qed.

Lemma get_local_etag_by_chunks_witness :
  Demo.open_rb ["r"; "big"] = Some (replicate 7 Demo.a) ∧ 0 < 3 ∧
  get_local_etag Demo.md5 Demo.open_rb ["r"; "big"] 3 = Ok (Some "0603-3") ∧
  0 < 7 ∧
  get_local_etag Demo.md5 Demo.open_rb ["r"; "big"] 7 = Ok (Some "0761").
Proof.
  split; [reflexivity|]. split; [lia|]. split; [|split; [lia|]].
  - apply (proj1 (get_local_etag_by_chunks Demo.md5 Demo.open_rb ["r"; "big"] 3
                    (replicate 7 Demo.a) eq_refl eq_refl) 3%nat eq_refl).
    vm_compute. lia.
  - apply (proj2 (get_local_etag_by_chunks Demo.md5 Demo.open_rb ["r"; "big"] 7
                    (replicate 7 Demo.a) eq_refl eq_refl) eq_refl).
Defined.

(** C4: for every positive chunk size, a zero-byte file gets the
    fingerprint [None], the sentinel of the empty file, and no file with
    at least one byte gets it, whatever its own positive chunk size. *)
Theorem empty_file_etag_is_sentinel md5 open_rb path cs path' cs' content' :
  open_rb path = Some [] → 0 < cs →
  open_rb path' = Some content' → content' ≠ [] → 0 < cs' →
  get_local_etag md5 open_rb path cs = Ok None
  ∧ get_local_etag md5 open_rb path' cs' ≠ get_local_etag md5 open_rb path cs.
Proof.
  intros Hempty Hcs Hopen Hne Hcs'.
  rewrite (get_local_etag_empty md5 open_rb path cs Hempty) by lia.
  split; [done|].
  destruct (get_local_etag_nonempty md5 open_rb path' cs' content' Hopen Hne)
    as [etag ->]; [lia | lia |].
  discriminate.
Qed.

Lemma empty_file_etag_is_sentinel_witness :
  Demo.open_rb ["r"; "e.txt"] = Some [] ∧ 0 < default_chunk_size ∧
  Demo.open_rb ["r"; "a.txt"] = Some (replicate 3 Demo.a) ∧
  replicate 3 Demo.a ≠ [] ∧ 0 < 2 ∧
  get_local_etag Demo.md5 Demo.open_rb ["r"; "e.txt"] default_chunk_size = Ok None ∧
  get_local_etag Demo.md5 Demo.open_rb ["r"; "a.txt"] 2
    ≠ get_local_etag Demo.md5 Demo.open_rb ["r"; "e.txt"] default_chunk_size.
Proof.
  assert (replicate 3 Demo.a ≠ []) as Hne by discriminate.
  split; [reflexivity|]. split; [reflexivity|]. split; [reflexivity|].
  split; [exact Hne|]. split; [reflexivity|].
  exact (empty_file_etag_is_sentinel Demo.md5 Demo.open_rb ["r"; "e.txt"]
           default_chunk_size ["r"; "a.txt"] 2 (replicate 3 Demo.a)
           eq_refl eq_refl eq_refl Hne eq_refl).
Defined.

(** ** The effect monad *)

#[local] Arguments bind : simpl never.

Lemma snd_bind {A B} (m : M A) (k : A → M B) :
  (bind m k).2 = match m.2 with Ok a => (k a).2 | Err e => Err e end.
Proof. unfold bind. destruct m as [t [a|e]]; simpl; [|done]. by destruct (k a). Qed.

Lemma fst_bind {A B} (m : M A) (k : A → M B) :
  (bind m k).1 = m.1 ++ match m.2 with Ok a => (k a).1 | Err e => [] end.
Proof.
  unfold bind. destruct m as [t [a|e]]; simpl; [|by rewrite app_nil_r].
  by destruct (k a).
Qed.

Lemma snd_when b m : (when b m).2 = if b then m.2 else Ok tt.
Proof. by destruct b. Qed.

(** ** The planner *)

Section PlannerProperties.

Variable md5 : list byte → list byte.
Variable open_rb : Path → option (list byte).
Variable s3api_list : list string → option (list (string * string)).

Lemma first_unreadable_Some files path :
  first_unreadable open_rb files = Some path →
  open_rb path = None ∧ ∃ rel_key, (rel_key, path) ∈ files.
Proof.
  induction files as [|[rel p] files IH]; [done|]. simpl.
  destruct (open_rb p) eqn:Hp.
  - intros [? [r ?]]%IH. split; [done|]. exists r. by right.
  - intros [= <-]. split; [done|]. exists rel. by left.
Qed.

Lemma first_unreadable_None files :
  first_unreadable open_rb files = None ↔
  ∀ rel_key path, (rel_key, path) ∈ files → is_Some (open_rb path).
Proof.
  induction files as [|[rel p] files IH]; simpl.
  - split; [|done]. intros _ ? ? H. by apply elem_of_nil in H.
  - destruct (open_rb p) eqn:Hp; split.
    + intros Hnone r q [[= -> ->]|Hin]%elem_of_cons; [by rewrite Hp|].
      by apply (proj1 IH Hnone r).
    + intros Hall. apply IH. intros r q Hin. apply (Hall r). by right.
    + done.
    + intros Hall. destruct (Hall rel p) as [? Hsome]; [by left|]. congruence.
Qed.

(** What the loop of [plan_uploads] returns: the error of the first file
    that cannot be read, or else the entries whose fingerprints differ, in
    the order of the walk. *)
Lemma plan_loop_result files prefix verbose remote_etags to_upload :
  (plan_loop md5 open_rb files prefix verbose remote_etags to_upload).2 =
    match first_unreadable open_rb files with
    | Some path => Err (IOError path)
    | None => Ok (to_upload ++ omap (changed md5 open_rb prefix remote_etags) files)
    end.
Proof.
  revert to_upload. induction files as [|[rel path] files IH]; intros to_upload; simpl.
  - by rewrite app_nil_r.
  - rewrite snd_bind. simpl. unfold changed at 1. simpl.
    pose proof (get_local_etag_cases md5 open_rb path default_chunk_size
                  default_chunk_size_valid) as Hcases.
    destruct (open_rb path) as [content|].
    + destruct Hcases as [etag ->].
      destruct (bool_decide (etag ≠ remote_etags !! dest_key prefix rel)).
      * rewrite snd_bind, snd_when. simpl.
        replace (if verbose then Ok () else Ok ()) with (@Ok unit ()) by (by destruct verbose).
        rewrite IH. destruct (first_unreadable open_rb files); [done|].
        by rewrite <- app_assoc.
      * apply IH.
    + by rewrite Hcases.
Qed.

(** The loop prints a line per planned entry when verbose, and nothing
    else; it starts no sub-process. *)
Lemma plan_loop_trace files prefix verbose remote_etags to_upload :
  Forall (λ ev, ∃ line, ev = Printed line)
         (plan_loop md5 open_rb files prefix verbose remote_etags to_upload).1.
Proof.
  revert to_upload. induction files as [|[rel path] files IH]; intros to_upload; simpl.
  - constructor.
  - rewrite fst_bind. simpl.
    destruct (get_local_etag md5 open_rb path default_chunk_size) as [etag|e];
      [|constructor].
    destruct (bool_decide (etag ≠ remote_etags !! dest_key prefix rel)); [|apply IH].
    rewrite fst_bind. apply Forall_app. split.
    + destruct verbose; simpl; repeat constructor. eauto.
    + rewrite snd_when. destruct verbose; apply IH.
Qed.

Lemma get_remote_etags_ok bucket prefix objects :
  s3api_list (list_cmd bucket prefix) = Some objects →
  get_remote_etags s3api_list bucket prefix
    = ([Run (list_cmd bucket prefix)], Ok (fill_etags objects ∅)).
Proof. intros H. unfold get_remote_etags. simpl. by rewrite H. Qed.

Lemma get_remote_etags_fails bucket prefix :
  s3api_list (list_cmd bucket prefix) = None →
  get_remote_etags s3api_list bucket prefix
    = ([Run (list_cmd bucket prefix)], Err (CalledProcessError (list_cmd bucket prefix))).
Proof. intros H. unfold get_remote_etags. simpl. by rewrite H. Qed.

Lemma plan_uploads_result files bucket prefix verbose objects :
  s3api_list (list_cmd bucket prefix) = Some objects →
  (plan_uploads md5 open_rb s3api_list files bucket prefix verbose).2 =
    match first_unreadable open_rb files with
    | Some path => Err (IOError path)
    | None => Ok (omap (changed md5 open_rb prefix (fill_etags objects ∅)) files)
    end.
Proof.
  intros Hlist. unfold plan_uploads.
  rewrite snd_bind, (get_remote_etags_ok _ _ _ Hlist). simpl.
  apply plan_loop_result.
Qed.

Lemma plan_uploads_fails files bucket prefix verbose :
  s3api_list (list_cmd bucket prefix) = None →
  plan_uploads md5 open_rb s3api_list files bucket prefix verbose
    = ([Run (list_cmd bucket prefix)], Err (CalledProcessError (list_cmd bucket prefix))).
Proof.
  intros Hlist. unfold plan_uploads.
  by rewrite (get_remote_etags_fails _ _ Hlist).
Qed.

(** Which entries a plan holds. *)
Lemma elem_of_changed prefix remote_etags (files : list (string * Path)) key path :
  (key, path) ∈ omap (changed md5 open_rb prefix remote_etags) files ↔
  ∃ rel_key local_etag,
    (rel_key, path) ∈ files ∧ key = dest_key prefix rel_key ∧
    get_local_etag md5 open_rb path default_chunk_size = Ok local_etag ∧
    local_etag ≠ remote_etags !! key.
Proof.
  rewrite list_elem_of_omap. split.
  - intros [[rel p] [Hin Hch]]. unfold changed in Hch. simpl in Hch.
    destruct (get_local_etag md5 open_rb p default_chunk_size) as [etag|] eqn:He; [|done].
    case_bool_decide as Hne; [|done]. injection Hch as <- <-.
    exists rel, etag. done.
  - intros (rel & etag & Hin & -> & He & Hne).
    exists (rel, path). split; [done|]. unfold changed. simpl.
    rewrite He. by rewrite bool_decide_eq_true_2.
Qed.

End PlannerProperties.

(** ** [sync] *)

Lemma bind_ret_l {A B} (a : A) (k : A → M B) : bind ([], Ok a) k = k a.
Proof. unfold bind. by destruct (k a). Qed.

Lemma parse_s3_dest_ok dest bp :
  (parse_s3_dest dest).2 = Ok bp → parse_s3_dest dest = ([], Ok bp).
Proof.
  unfold parse_s3_dest. destruct (negb (Str.startswith "s3://" dest)); [done|].
  destruct (split_once slash (drop_chars 5 dest)) as [[bucket prefix]|];
    simpl; by intros [= <-].
Qed.

Lemma length_submit_from i bucket total acl dryrun verbose to_upload :
  length (submit_from i bucket total acl dryrun verbose to_upload) = length to_upload.
Proof.
  revert i. induction to_upload as [|[key path] rest IH]; intros i; simpl; [done|].
  by rewrite IH.
Qed.

Lemma submit_from_lookup i bucket total acl dryrun verbose to_upload j key path :
  to_upload !! j = Some (key, path) →
  submit_from i bucket total acl dryrun verbose to_upload !! j =
    Some {| u_bucket := bucket; u_key := key; u_path := path; u_idx := i + j + 1;
            u_total := total; u_acl := acl; u_dryrun := dryrun; u_verbose := verbose |}.
Proof.
  revert i j. induction to_upload as [|[k p] rest IH]; intros i j; [done|].
  destruct j as [|j]; simpl.
  - intros [= -> ->]. by rewrite Nat.add_0_r.
  - intros H. rewrite (IH (S i) j H). do 3 f_equal. lia.
Qed.

Section SyncProperties.

Variable md5 : list byte → list byte.
Variable open_rb : Path → option (list byte).
Variable s3api_list : list string → option (list (string * string)).
Variable fnmatch : string → string → bool.
Variable path_of : string → Path.
Variable stat : Path → option fsnode.

(** [sync] once the destination parses and the source exists. *)
Lemma sync_proceeds source dest workers acl dryrun excludes verbose bucket prefix node :
  (parse_s3_dest dest).2 = Ok (bucket, prefix) →
  stat (path_of source) = Some node →
  sync md5 open_rb s3api_list fnmatch path_of stat source dest workers acl dryrun excludes verbose =
    let* to_upload :=
      plan_uploads md5 open_rb s3api_list
        (discover_files fnmatch (path_of source) node excludes) bucket prefix verbose in
    if (length to_upload =? 0)%nat then
      let* _ := emit (Printed "All files are up to date.") in ret []
    else
      let* _ := emit (Printed ("Uploading " +:+ Str.of_nat (length to_upload) +:+ " files...")) in
      let* _ := thread_pool workers in
      ret (submit_from 0 bucket (length to_upload) acl dryrun verbose to_upload).
Proof.
  intros Hparse%parse_s3_dest_ok Hstat. unfold sync.
  rewrite Hparse, bind_ret_l, Hstat. done.
Qed.

(** Whatever [sync] submits is the plan, numbered in order. *)
Lemma sync_submits source dest workers acl dryrun excludes verbose bucket prefix node calls :
  (parse_s3_dest dest).2 = Ok (bucket, prefix) →
  stat (path_of source) = Some node →
  (sync md5 open_rb s3api_list fnmatch path_of stat source dest workers acl dryrun excludes verbose).2
    = Ok calls →
  ∃ to_upload,
    (plan_uploads md5 open_rb s3api_list
       (discover_files fnmatch (path_of source) node excludes) bucket prefix verbose).2
      = Ok to_upload
    ∧ calls = submit_from 0 bucket (length to_upload) acl dryrun verbose to_upload.
Proof.
  intros Hparse Hstat. rewrite (sync_proceeds _ _ _ _ _ _ _ _ _ _ Hparse Hstat).
  rewrite snd_bind.
  destruct (plan_uploads _ _ _ _ _ _ _).2 as [to_upload|e]; [|done].
  intros Hcalls. exists to_upload. split; [done|].
  destruct to_upload as [|entry rest]; simpl in Hcalls; [by injection Hcalls as <-|].
  unfold thread_pool in Hcalls. destruct (workers <=? 0); simpl in Hcalls; [done|].
  by injection Hcalls as <-.
Qed.

End SyncProperties.

(** ** Claims about the planner *)

(** C1: a local file whose key is missing from the remote state should be
    planned.  A new zero-byte file is not: its fingerprint [None] equals
    what [remote_etags.get(key)] returns for a missing key, and the plan
    comes out empty. *)
Theorem plan_uploads_misses_new_empty_file (md5 : list byte → list byte) :
  Demo.open_rb ["r"; "e.txt"] = Some []
  ∧ fill_etags [] ∅ !! dest_key EmptyString "e.txt" = None
  ∧ plan_uploads md5 Demo.open_rb Demo.empty_bucket
      [("e.txt", ["r"; "e.txt"])] "bkt" EmptyString false
    = ([Run ["aws"; "s3api"; "list-objects-v2"; "--bucket"; "bkt"; "--output"; "json"]],
       Ok []).
Proof. split; [reflexivity|]. split; reflexivity. Qed.

(** C10: a zero-byte local file whose destination key is absent from the
    remote state is not in the plan: its fingerprint [None] equals the
    result [None] of the lookup.  The plan exists whenever every file can
    be read. *)
Theorem new_empty_file_is_never_planned md5 open_rb s3api_list
    (files : list (string * Path)) bucket prefix verbose objects rel_key path :
  s3api_list (list_cmd bucket prefix) = Some objects →
  (rel_key, path) ∈ files →
  open_rb path = Some [] →
  fill_etags objects ∅ !! dest_key prefix rel_key = None →
  (∀ to_upload,
     (plan_uploads md5 open_rb s3api_list files bucket prefix verbose).2 = Ok to_upload →
     (dest_key prefix rel_key, path) ∉ to_upload)
  ∧ ((∀ r p, (r, p) ∈ files → is_Some (open_rb p)) →
     ∃ to_upload,
       (plan_uploads md5 open_rb s3api_list files bucket prefix verbose).2 = Ok to_upload).
Proof.
  intros Hlist Hin Hempty Hmissing.
  rewrite (plan_uploads_result md5 open_rb s3api_list files bucket prefix verbose objects Hlist).
  split.
  - intros to_upload Hplan.
    destruct (first_unreadable open_rb files); [done|]. injection Hplan as <-.
    intros (rel' & etag & _ & _ & Hetag & Hne)%elem_of_changed.
    rewrite (get_local_etag_empty md5 open_rb path _ Hempty default_chunk_size_valid)
      in Hetag.
    injection Hetag as <-. by rewrite Hmissing in Hne.
  - intros Hreadable%first_unreadable_None. rewrite Hreadable. eauto.
Qed.

Lemma new_empty_file_is_never_planned_witness :
  Demo.empty_bucket (list_cmd "bkt" "p") = Some []
  ∧ ("e.txt", ["r"; "e.txt"]) ∈ [("a.txt", ["r"; "a.txt"]); ("e.txt", ["r"; "e.txt"])]
  ∧ Demo.open_rb ["r"; "e.txt"] = Some []
  ∧ fill_etags [] ∅ !! dest_key "p" "e.txt" = None
  ∧ ∀ to_upload,
      (plan_uploads Demo.md5 Demo.open_rb Demo.empty_bucket
         [("a.txt", ["r"; "a.txt"]); ("e.txt", ["r"; "e.txt"])] "bkt" "p" false).2
        = Ok to_upload →
      (dest_key "p" "e.txt", ["r"; "e.txt"]) ∉ to_upload.
Proof.
  assert (("e.txt", ["r"; "e.txt"]) ∈ [("a.txt", ["r"; "a.txt"]); ("e.txt", ["r"; "e.txt"])])
    as Hin by (right; left).
  split; [reflexivity|]. split; [exact Hin|]. split; [reflexivity|]. split; [reflexivity|].
  exact (proj1 (new_empty_file_is_never_planned Demo.md5 Demo.open_rb Demo.empty_bucket
                  [("a.txt", ["r"; "a.txt"]); ("e.txt", ["r"; "e.txt"])] "bkt" "p" false []
                  "e.txt" ["r"; "e.txt"] eq_refl Hin eq_refl eq_refl)).
Defined.

(** C5, as stated, fails: with one unreadable file [q] and one new file
    [a.txt], planning ends in the [IOError] of [q]; there is no plan, so
    [a.txt] is not processed. *)
Lemma unreadable_file_stops_siblings :
  Demo.open_rb ["r"; "q"] = None
  ∧ (plan_uploads Demo.md5 Demo.open_rb Demo.empty_bucket
       [("q", ["r"; "q"]); ("a.txt", ["r"; "a.txt"])] "bkt" EmptyString false).2
    = Err (IOError ["r"; "q"])
  ∧ ¬ ∃ to_upload,
        (plan_uploads Demo.md5 Demo.open_rb Demo.empty_bucket
           [("q", ["r"; "q"]); ("a.txt", ["r"; "a.txt"])] "bkt" EmptyString false).2
          = Ok to_upload
        ∧ ("a.txt", ["r"; "a.txt"]) ∈ to_upload.
Proof.
  split; [reflexivity|]. split; [reflexivity|].
  intros (to_upload & Hplan & _). discriminate Hplan.
Qed.

(** C5, amended: when a file of the walk cannot be read, the [IOError] of
    an unreadable file leaves [plan_uploads] and [sync]: no plan is
    returned and nothing is submitted to the pool, for any file. *)
Theorem unreadable_file_aborts_sync md5 open_rb s3api_list fnmatch path_of stat
    source dest workers acl dryrun excludes verbose bucket prefix node objects rel_key path :
  (parse_s3_dest dest).2 = Ok (bucket, prefix) →
  stat (path_of source) = Some node →
  s3api_list (list_cmd bucket prefix) = Some objects →
  (rel_key, path) ∈ discover_files fnmatch (path_of source) node excludes →
  open_rb path = None →
  ∃ path',
    open_rb path' = None
    ∧ (plan_uploads md5 open_rb s3api_list
         (discover_files fnmatch (path_of source) node excludes) bucket prefix verbose).2
      = Err (IOError path')
    ∧ (sync md5 open_rb s3api_list fnmatch path_of stat
         source dest workers acl dryrun excludes verbose).2
      = Err (IOError path').
Proof.
  intros Hparse Hstat Hlist Hin Hopen.
  rewrite (sync_proceeds md5 open_rb s3api_list fnmatch path_of stat
             _ _ _ _ _ _ _ _ _ _ Hparse Hstat).
  rewrite snd_bind.
  rewrite (plan_uploads_result md5 open_rb s3api_list _ bucket prefix verbose objects Hlist).
  destruct (first_unreadable open_rb _) as [path'|] eqn:Hfirst.
  - apply first_unreadable_Some in Hfirst as [Hnone _]. by exists path'.
  - destruct (proj1 (first_unreadable_None open_rb _) Hfirst rel_key path Hin) as [? Hsome].
    congruence.
Qed.

Lemma unreadable_file_aborts_sync_witness :
  (parse_s3_dest "s3://bkt/p").2 = Ok ("bkt", "p")
  ∧ Demo.stat (Demo.path_of "r") = Some (IsDir (Dir "r" [] ["q"; "a.txt"; "e.txt"]))
  ∧ Demo.empty_bucket (list_cmd "bkt" "p") = Some []
  ∧ ("q", ["r"; "q"]) ∈ discover_files Demo.fnmatch (Demo.path_of "r")
                          (IsDir (Dir "r" [] ["q"; "a.txt"; "e.txt"])) []
  ∧ Demo.open_rb ["r"; "q"] = None
  ∧ ∃ path',
      Demo.open_rb path' = None
      ∧ (plan_uploads Demo.md5 Demo.open_rb Demo.empty_bucket
           (discover_files Demo.fnmatch (Demo.path_of "r")
              (IsDir (Dir "r" [] ["q"; "a.txt"; "e.txt"])) []) "bkt" "p" false).2
        = Err (IOError path')
      ∧ (sync Demo.md5 Demo.open_rb Demo.empty_bucket Demo.fnmatch Demo.path_of Demo.stat
           "r" "s3://bkt/p" 4 None false [] false).2
        = Err (IOError path').
Proof.
  assert (("q", ["r"; "q"]) ∈ discover_files Demo.fnmatch (Demo.path_of "r")
                                (IsDir (Dir "r" [] ["q"; "a.txt"; "e.txt"])) [])
    as Hin by left.
  split; [reflexivity|]. split; [reflexivity|]. split; [reflexivity|].
  split; [exact Hin|]. split; [reflexivity|].
  exact (unreadable_file_aborts_sync Demo.md5 Demo.open_rb Demo.empty_bucket
           Demo.fnmatch Demo.path_of Demo.stat "r" "s3://bkt/p" 4 None false [] false
           "bkt" "p" (IsDir (Dir "r" [] ["q"; "a.txt"; "e.txt"])) [] "q" ["r"; "q"]
           eq_refl eq_refl eq_refl Hin eq_refl).
Defined.

(** C7: when the listing fails, [plan_uploads] raises before it looks at
    any file and [sync] ends with that error: the listing command is the
    only thing run, nothing is printed, and no upload is submitted. *)
Theorem sync_aborts_when_listing_fails md5 open_rb s3api_list fnmatch path_of stat
    source dest workers acl dryrun excludes verbose bucket prefix node :
  (parse_s3_dest dest).2 = Ok (bucket, prefix) →
  stat (path_of source) = Some node →
  s3api_list (list_cmd bucket prefix) = None →
  (∀ files,
     plan_uploads md5 open_rb s3api_list files bucket prefix verbose
       = ([Run (list_cmd bucket prefix)], Err (CalledProcessError (list_cmd bucket prefix))))
  ∧ sync md5 open_rb s3api_list fnmatch path_of stat source dest workers acl dryrun excludes verbose
    = ([Run (list_cmd bucket prefix)], Err (CalledProcessError (list_cmd bucket prefix)))
  ∧ ∀ tr,
      sync_trace (sync md5 open_rb s3api_list fnmatch path_of stat
                    source dest workers acl dryrun excludes verbose) tr →
      tr = [Run (list_cmd bucket prefix)].
Proof.
  intros Hparse Hstat Hlist.
  assert (sync md5 open_rb s3api_list fnmatch path_of stat source dest workers acl dryrun excludes verbose
          = ([Run (list_cmd bucket prefix)], Err (CalledProcessError (list_cmd bucket prefix))))
    as Hsync.
  { rewrite (sync_proceeds md5 open_rb s3api_list fnmatch path_of stat
               _ _ _ _ _ _ _ _ _ _ Hparse Hstat).
    by rewrite (plan_uploads_fails md5 open_rb s3api_list _ _ _ _ Hlist). }
  split; [|split].
  - intros files. by apply plan_uploads_fails.
  - exact Hsync.
  - intros tr. by rewrite Hsync.
Qed.

Lemma sync_aborts_when_listing_fails_witness :
  (parse_s3_dest "s3://bkt/p").2 = Ok ("bkt", "p")
  ∧ Demo.stat (Demo.path_of "r") = Some (IsDir (Dir "r" [] ["q"; "a.txt"; "e.txt"]))
  ∧ Demo.unreachable_bucket (list_cmd "bkt" "p") = None
  ∧ sync Demo.md5 Demo.open_rb Demo.unreachable_bucket Demo.fnmatch Demo.path_of Demo.stat
      "r" "s3://bkt/p" 4 None false [] true
    = ([Run (list_cmd "bkt" "p")], Err (CalledProcessError (list_cmd "bkt" "p"))).
Proof.
  split; [reflexivity|]. split; [reflexivity|]. split; [reflexivity|].
  exact (proj1 (proj2 (sync_aborts_when_listing_fails Demo.md5 Demo.open_rb
                         Demo.unreachable_bucket Demo.fnmatch Demo.path_of Demo.stat
                         "r" "s3://bkt/p" 4 None false [] true "bkt" "p"
                         (IsDir (Dir "r" [] ["q"; "a.txt"; "e.txt"]))
                         eq_refl eq_refl eq_refl))).
Defined.

(** ** Destination keys and numbering *)

(** [lstrip] removes a run of the character and nothing else, and what is
    left does not start with it. *)
Lemma lstrip_spec c s :
  ∃ n, s = Str.repeat c n +:+ Str.lstrip c s
       ∧ match Str.lstrip c s with
         | EmptyString => True
         | String a _ => a ≠ c
         end.
Proof.
  induction s as [|a s IH]; simpl.
  - by exists 0%nat.
  - destruct (Ascii.eqb_spec a c) as [->|Hne].
    + destruct IH as (n & Heq & Hhead). exists (S n). simpl.
      split; [|done]. unfold String.app in *. simpl. by rewrite <- Heq.
    + by exists 0%nat.
Qed.

(** C8: every planned key belongs to an entry of the walk and is what is
    left of [prefix + "/" + rel_key], or of [rel_key] when the prefix is
    empty, once the leading separators are taken off: some number of
    separators followed by the key give that string back, and the key
    starts with no separator.  The [i]-th call submitted (from 0) is the
    [i]-th entry of the plan and carries the index [i + 1] and the size of
    the plan. *)
Theorem planned_keys_and_numbering md5 open_rb s3api_list fnmatch path_of stat
    source dest workers acl dryrun excludes verbose bucket prefix node calls :
  (parse_s3_dest dest).2 = Ok (bucket, prefix) →
  stat (path_of source) = Some node →
  (sync md5 open_rb s3api_list fnmatch path_of stat
     source dest workers acl dryrun excludes verbose).2 = Ok calls →
  ∃ to_upload,
    (plan_uploads md5 open_rb s3api_list
       (discover_files fnmatch (path_of source) node excludes) bucket prefix verbose).2
      = Ok to_upload
    ∧ (∀ key path, (key, path) ∈ to_upload →
         ∃ rel_key n,
           (rel_key, path) ∈ discover_files fnmatch (path_of source) node excludes
           ∧ match prefix with
             | EmptyString => rel_key
             | String _ _ => prefix +:+ "/" +:+ rel_key
             end = Str.repeat "/" n +:+ key
           ∧ match key with
             | EmptyString => True
             | String a _ => a ≠ "/"%char
             end)
    ∧ length calls = length to_upload
    ∧ ∀ i key path, to_upload !! i = Some (key, path) →
        ∃ c, calls !! i = Some c ∧ u_key c = key ∧ u_path c = path
             ∧ u_idx c = S i ∧ u_total c = length to_upload.
Proof.
  intros Hparse Hstat Hsync.
  destruct (sync_submits md5 open_rb s3api_list fnmatch path_of stat
              _ _ _ _ _ _ _ _ _ _ _ Hparse Hstat Hsync) as (to_upload & Hplan & ->).
  exists to_upload. split; [done|]. split; [|split].
  - intros key path Hin.
    destruct (s3api_list (list_cmd bucket prefix)) as [objects|] eqn:Hlist.
    + rewrite (plan_uploads_result md5 open_rb s3api_list _ _ _ _ objects Hlist) in Hplan.
      destruct (first_unreadable open_rb _); [done|]. injection Hplan as <-.
      apply elem_of_changed in Hin as (rel_key & etag & Hfile & -> & _ & _).
      unfold dest_key.
      set (raw := if Str.truthy prefix then _ else _).
      destruct (lstrip_spec slash raw) as (n & Hraw & Hhead).
      unfold slash in *.
      exists rel_key, n. split; [done|]. split; [|done].
      rewrite <- Hraw. unfold raw. by destruct prefix.
    + by rewrite (plan_uploads_fails md5 open_rb s3api_list _ _ _ _ Hlist) in Hplan.
  - apply length_submit_from.
  - intros i key path Hi. eexists. split; [by apply submit_from_lookup|].
    simpl. repeat split; lia.
Qed.

Lemma planned_keys_and_numbering_witness :
  (parse_s3_dest "s3://bkt//p").2 = Ok ("bkt", "/p")
  ∧ Demo.stat (Demo.path_of "r") = Some (IsDir (Dir "r" [] ["q"; "a.txt"; "e.txt"]))
  ∧ (sync Demo.md5 Demo.open_rb Demo.empty_bucket Demo.fnmatch Demo.path_of Demo.stat
       "r" "s3://bkt//p" 4 None false ["q"] false).2
    = Ok [ {| u_bucket := "bkt"; u_key := "p/a.txt"; u_path := ["r"; "a.txt"];
              u_idx := 1; u_total := 1; u_acl := None;
              u_dryrun := false; u_verbose := false |} ]
  ∧ ∃ to_upload,
      (plan_uploads Demo.md5 Demo.open_rb Demo.empty_bucket
         (discover_files Demo.fnmatch (Demo.path_of "r")
            (IsDir (Dir "r" [] ["q"; "a.txt"; "e.txt"])) ["q"]) "bkt" "/p" false).2
        = Ok to_upload
      ∧ (∀ key path, (key, path) ∈ to_upload →
           ∃ rel_key n,
             (rel_key, path) ∈ discover_files Demo.fnmatch (Demo.path_of "r")
                                 (IsDir (Dir "r" [] ["q"; "a.txt"; "e.txt"])) ["q"]
             ∧ "/p" +:+ "/" +:+ rel_key = Str.repeat "/" n +:+ key
             ∧ match key with
               | EmptyString => True
               | String a _ => a ≠ "/"%char
               end)
      ∧ length [ {| u_bucket := "bkt"; u_key := "p/a.txt"; u_path := ["r"; "a.txt"];
                    u_idx := 1; u_total := 1; u_acl := None;
                    u_dryrun := false; u_verbose := false |} ]
        = length to_upload.
Proof.
  split; [reflexivity|]. split; [reflexivity|]. split; [reflexivity|].
  destruct (planned_keys_and_numbering Demo.md5 Demo.open_rb Demo.empty_bucket
              Demo.fnmatch Demo.path_of Demo.stat "r" "s3://bkt//p" 4 None false ["q"] false
              "bkt" "/p" (IsDir (Dir "r" [] ["q"; "a.txt"; "e.txt"])) _
              eq_refl eq_refl eq_refl) as (to_upload & Hplan & Hkeys & Hlen & _).
  exists to_upload. split; [exact Hplan|]. split; [exact Hkeys | exact Hlen].
Defined.

(** ** Claims about the upload step *)

(** C2: outside dry-run mode a call of [upload_file] should write the
    object.  It does not: with [dryrun] off it does exactly what it does
    with [dryrun] on, which is to print (the command when verbose, then
    the progress line), and it starts no sub-process. *)
Theorem upload_file_never_writes bucket key path idx total acl verbose :
  upload_file bucket key path idx total acl false verbose
    = ((if verbose then [PrintedRepr (put_cmd bucket key path acl)] else [])
         ++ [Printed (uploaded_line idx total key)], Ok ())
  ∧ upload_file bucket key path idx total acl false verbose
    = upload_file bucket key path idx total acl true verbose
  ∧ Forall (λ ev, ∀ cmd, ev ≠ Run cmd)
           (upload_file bucket key path idx total acl false verbose).1.
Proof.
  split; [by destruct verbose|]. split; [done|].
  destruct verbose; repeat constructor; discriminate.
Qed.

(** ** The tree walker *)

(** The walker only takes paths relative to the source that lie below it,
    so [relative_to] never fails there and returns what was appended. *)
Lemma relative_to_app base rel : relative_to (base ++ rel) base = Some rel.
Proof.
  induction base as [|b base IH]; simpl; [by destruct rel|].
  by rewrite decide_True.
Qed.

Lemma dirtree_forall_ind (P : dirtree → Prop) :
  (∀ name subdirs fnames, Forall P subdirs → P (Dir name subdirs fnames)) →
  ∀ t, P t.
Proof.
  intros Hdir. fix IH 1. intros [name subdirs fnames]. apply Hdir.
  induction subdirs as [|sub subdirs IHsub]; constructor; [apply IH | exact IHsub].
Qed.

Lemma prefix_snoc_cases {A} (q l : list A) (x : A) :
  q `prefix_of` l ++ [x] → q `prefix_of` l ∨ q = l ++ [x].
Proof.
  intros [k Hk]. destruct (decide (k = [])) as [->|Hne].
  - right. by rewrite app_nil_r in Hk.
  - left. destruct (exists_last Hne) as (k' & y & ->).
    rewrite app_assoc in Hk. apply app_inj_tail in Hk as [-> _]. by exists k'.
Qed.

Lemma elem_of_concat_list {A} (x : A) (ls : list (list A)) :
  x ∈ concat ls ↔ ∃ l, l ∈ ls ∧ x ∈ l.
Proof.
  induction ls as [|l ls IH]; simpl.
  - split; [by intros ?%elem_of_nil | by intros (? & ?%elem_of_nil & _)].
  - rewrite elem_of_app, IH. split.
    + intros [Hx|(l' & Hl' & Hx)]; [exists l; split; [left|done] | exists l'; split; [by right|done]].
    + intros (l' & [->|Hl']%elem_of_cons & Hx); [by left | right; by exists l'].
Qed.

Section WalkerProperties.

Variable fnmatch : string → string → bool.
Variable source_path : Path.
Variable excludes : list string.

#[local] Abbreviation body := (discover_body fnmatch source_path excludes).

(** One step of the walk: the directory itself, then the sub-directories
    that are not excluded, each with what lies below it. *)
Lemma os_walk_discover rel name subdirs fnames :
  os_walk body rel (Dir name subdirs fnames) =
    (rel, omap (file_entry fnmatch source_path excludes rel) fnames)
    :: concat (map (λ sub,
                      if is_excluded fnmatch (rel_key_of (rel ++ [dir_name sub])) excludes
                      then [] else os_walk body (rel ++ [dir_name sub]) sub)
                   subdirs).
Proof.
  simpl. f_equal.
  set (dirs := filter _ _).
  assert (∀ sub, sub ∈ subdirs →
            bool_decide (dir_name sub ∈ dirs)
            = negb (is_excluded fnmatch (rel_key_of (rel ++ [dir_name sub])) excludes))
    as Hdirs.
  { intros sub Hsub. unfold dirs.
    destruct (is_excluded fnmatch (rel_key_of (rel ++ [dir_name sub])) excludes) eqn:Hex;
      simpl.
    - apply bool_decide_eq_false_2. rewrite list_elem_of_filter. intros [Hno _]. congruence.
    - apply bool_decide_eq_true_2. rewrite list_elem_of_filter. split; [done|].
      apply list_elem_of_fmap. by exists sub. }
  clearbody dirs. induction subdirs as [|sub rest IH]; [done|].
  simpl. rewrite IH.
  - rewrite Hdirs by left. by destruct (is_excluded _ _ _).
  - intros sub' Hsub'. apply Hdirs. by right.
Qed.

(** Every directory the walk visits is in the tree, is not excluded and
    lies below no excluded directory; the files found there are those of
    the directory that are not excluded. *)
Lemma discover_visits_sound t base v found :
  (v, found) ∈ os_walk body base t →
  ∃ d name subdirs fnames,
    v = base ++ d ∧ dir_at t d (Dir name subdirs fnames)
    ∧ kept fnmatch excludes base d
    ∧ found = omap (file_entry fnmatch source_path excludes v) fnames.
Proof.
  revert base. induction t as [name subdirs fnames IH] using dirtree_forall_ind.
  intros base. rewrite os_walk_discover.
  intros [[= -> ->]|Hbelow]%elem_of_cons.
  - exists [], name, subdirs, fnames. rewrite app_nil_r.
    split; [done|]. split; [constructor|]. split; [|done].
    intros q Hq [k Hk]. by destruct q.
  - apply elem_of_concat_list in Hbelow as (l & Hl & Hin).
    apply list_elem_of_fmap in Hl as (sub & -> & Hsub).
    destruct (is_excluded fnmatch (rel_key_of (base ++ [dir_name sub])) excludes) eqn:Hex;
      [by apply elem_of_nil in Hin|].
    rewrite Forall_forall in IH.
    destruct (IH sub Hsub _ Hin) as (d & n' & s' & f' & -> & Hat & Hkept & ->).
    exists (dir_name sub :: d), n', s', f'.
    split; [by rewrite <- app_assoc|]. split; [by econstructor|]. split; [|done].
    intros q Hq [k Hk]. destruct q as [|x q]; [done|].
    injection Hk as <- ->.
    destruct (decide (q = [])) as [->|Hne]; [done|].
    replace (base ++ dir_name sub :: q) with ((base ++ [dir_name sub]) ++ q)
      by (by rewrite <- app_assoc).
    apply Hkept; [done | by exists k].
Qed.

(** Conversely the walk visits every directory that is kept. *)
Lemma discover_visits_complete t base d name subdirs fnames :
  dir_at t d (Dir name subdirs fnames) →
  kept fnmatch excludes base d →
  (base ++ d, omap (file_entry fnmatch source_path excludes (base ++ d)) fnames)
    ∈ os_walk body base t.
Proof.
  intros Hat. revert base.
  remember (Dir name subdirs fnames) as t' eqn:Ht'.
  induction Hat as [t|n s f sub rel t' Hsub Hat IH]; intros base Hkept.
  - subst t. rewrite os_walk_discover, app_nil_r. by left.
  - rewrite os_walk_discover. right.
    apply elem_of_concat_list.
    eexists. split; [apply list_elem_of_fmap; by exists sub|].
    rewrite (Hkept [dir_name sub]); [|done | by exists rel].
    replace (base ++ dir_name sub :: rel) with ((base ++ [dir_name sub]) ++ rel)
      by (by rewrite <- app_assoc).
    apply IH; [done|].
    intros q Hq [k Hk]. rewrite <- app_assoc. apply Hkept; [done|].
    exists k. simpl. by rewrite Hk.
Qed.

Lemma elem_of_file_entries rel (fnames : list string) rel_key path :
  (rel_key, path) ∈ omap (file_entry fnmatch source_path excludes rel) fnames ↔
  ∃ fname, fname ∈ fnames
    ∧ is_excluded fnmatch (rel_key_of (rel ++ [fname])) excludes = false
    ∧ rel_key = rel_key_of (rel ++ [fname])
    ∧ path = source_path ++ rel ++ [fname].
Proof.
  rewrite list_elem_of_omap. unfold file_entry. split.
  - intros (fname & Hin & Hentry). exists fname.
    destruct (is_excluded _ _ _); [done|]. by injection Hentry as <- <-.
  - intros (fname & Hin & Hex & -> & ->). exists fname. by rewrite Hex.
Qed.

(** The files [discover_files] returns for a directory: those of the tree
    that are kept. *)
Lemma discover_files_spec t rel_key path :
  (rel_key, path) ∈ discover_files fnmatch source_path (IsDir t) excludes ↔
  ∃ rel, path = source_path ++ rel ∧ rel_key = rel_key_of rel
         ∧ file_in t rel ∧ kept fnmatch excludes [] rel.
Proof.
  unfold discover_files, discover_visits. rewrite elem_of_concat_list. split.
  - intros (found & Hfound & Hin).
    apply list_elem_of_fmap in Hfound as ([v found'] & -> & Hvisit). simpl in Hin.
    apply discover_visits_sound in Hvisit as (d & n & s & f & -> & Hat & Hkept & ->).
    simpl in Hin. apply elem_of_file_entries in Hin as (fname & Hf & Hex & -> & ->).
    exists (d ++ [fname]). split; [done|]. split; [done|]. split.
    + by exists d, fname, n, s, f.
    + intros q Hq [Hpre| ->]%prefix_snoc_cases; [by apply Hkept | done].
  - intros (rel & -> & -> & (d & fname & n & s & f & -> & Hat & Hf) & Hkept).
    exists (omap (file_entry fnmatch source_path excludes d) f). split.
    + apply list_elem_of_fmap.
      exists (d, omap (file_entry fnmatch source_path excludes d) f). split; [done|].
      apply (discover_visits_complete t [] d n s f Hat).
      intros q Hq Hpre. apply Hkept; [done|]. by apply prefix_app_r.
    + apply elem_of_file_entries. exists fname. split; [done|]. split; [|done].
      apply (Hkept (d ++ [fname])); [by destruct d | done].
Qed.

End WalkerProperties.

(** Under a root that is a single file, the file is returned unless its
    name is excluded. *)
Lemma discover_files_single fnmatch source_path excludes :
  discover_files fnmatch source_path IsFile excludes =
    if is_excluded fnmatch (path_name source_path) excludes then []
    else [(path_name source_path, source_path)].
Proof. reflexivity. Qed.

(** C6: when the key of a path [q] below the source directory matches an
    exclude pattern, the walk visits no directory at or below [q], and no
    file at or below [q] is in its output. *)
Theorem excluded_paths_are_pruned fnmatch source_path excludes t q :
  q ≠ [] →
  is_excluded fnmatch (rel_key_of q) excludes = true →
  (∀ rel found,
     (rel, found) ∈ discover_visits fnmatch source_path excludes t →
     ¬ q `prefix_of` rel)
  ∧ (∀ rel_key rel,
       (rel_key, source_path ++ rel)
         ∈ discover_files fnmatch source_path (IsDir t) excludes →
       ¬ q `prefix_of` rel).
Proof.
  intros Hq Hex. split.
  - intros rel found Hvisit Hpre.
    apply discover_visits_sound in Hvisit as (d & _ & _ & _ & Hrel & _ & Hkept & _).
    simpl in Hrel. subst d.
    specialize (Hkept q Hq Hpre). simpl in Hkept. congruence.
  - intros rel_key rel Hin Hpre.
    apply discover_files_spec in Hin as (rel' & Hrel & _ & _ & Hkept).
    apply app_inv_head in Hrel as <-.
    specialize (Hkept q Hq Hpre). simpl in Hkept. congruence.
Qed.

Lemma excluded_paths_are_pruned_witness :
  ["x"] ≠ ([] : Path)
  ∧ is_excluded Demo.fnmatch (rel_key_of ["x"]) ["x"] = true
  ∧ discover_files Demo.fnmatch ["r"] (IsDir Demo.tree) ["x"]
    = [("top", ["r"; "top"]); ("z/k", ["r"; "z"; "k"])]
  ∧ (∀ rel found,
       (rel, found) ∈ discover_visits Demo.fnmatch ["r"] ["x"] Demo.tree →
       ¬ ["x"] `prefix_of` rel)
  ∧ (∀ rel_key rel,
       (rel_key, ["r"] ++ rel) ∈ discover_files Demo.fnmatch ["r"] (IsDir Demo.tree) ["x"] →
       ¬ ["x"] `prefix_of` rel).
Proof.
  assert (["x"] ≠ ([] : Path)) as Hne by discriminate.
  split; [exact Hne|]. split; [reflexivity|]. split; [reflexivity|].
  exact (excluded_paths_are_pruned Demo.fnmatch ["r"] ["x"] Demo.tree ["x"] Hne eq_refl).
Defined.

(** ** Two runs in a row *)

(** C9: a second run over unchanged sources should plan nothing once the
    remote state reflects the first run.  With a zero-byte file whose key
    the bucket already lists it does not: the first run plans the file,
    the store lists it again with the ETag of the empty object, whatever
    that is, and the second run plans it again, since the fingerprint
    [None] equals no ETag. *)
Theorem second_run_replans_empty_file (md5 : list byte → list byte)
    (store_etag : list byte → string) :
  (plan_uploads md5 Demo.open_rb (λ _, Some Demo.listing_with_empty)
     [("e.txt", ["r"; "e.txt"])] "bkt" EmptyString false).2
    = Ok [("e.txt", ["r"; "e.txt"])]
  ∧ (plan_uploads md5 Demo.open_rb
       (λ _, Some (listing_after store_etag Demo.open_rb
                     [("e.txt", ["r"; "e.txt"])] Demo.listing_with_empty))
       [("e.txt", ["r"; "e.txt"])] "bkt" EmptyString false).2
    = Ok [("e.txt", ["r"; "e.txt"])].
Proof.
  split; [reflexivity|].
  rewrite (plan_uploads_result md5 Demo.open_rb _ _ "bkt" EmptyString false _ eq_refl).
  simpl. unfold changed. simpl.
  change (dest_key EmptyString "e.txt") with "e.txt".
  by rewrite lookup_insert_eq.
Qed.

(** Outside that case the second run does plan nothing: when no file of
    the walk is empty, the keys of the walk are distinct, and the store
    gives an uploaded object the ETag the program computes for the file. *)

Lemma fill_etags_app objects1 objects2 etags :
  fill_etags (objects1 ++ objects2) etags = fill_etags objects2 (fill_etags objects1 etags).
Proof.
  revert etags. induction objects1 as [|[k e] rest IH]; intros etags; simpl; [done|].
  apply IH.
Qed.

Lemma fill_etags_lookup_notin objects etags key :
  key ∉ map fst objects → fill_etags objects etags !! key = etags !! key.
Proof.
  revert etags. induction objects as [|[k e] rest IH]; intros etags Hnotin; simpl; [done|].
  simpl in Hnotin. apply not_elem_of_cons in Hnotin as [Hne Hrest].
  rewrite IH by done. by rewrite lookup_insert_ne.
Qed.

Lemma fill_etags_lookup_in objects etags key etag :
  NoDup (map fst objects) → (key, etag) ∈ objects →
  fill_etags objects etags !! key = Some (Str.strip dquote etag).
Proof.
  revert etags. induction objects as [|[k e] rest IH]; intros etags Hnodup Hin; simpl.
  - by apply elem_of_nil in Hin.
  - simpl in Hnodup. apply NoDup_cons in Hnodup as [Hnotin Hnodup].
    apply elem_of_cons in Hin as [[= -> ->]|Hin].
    + rewrite fill_etags_lookup_notin by done. apply lookup_insert_eq.
    + by apply IH.
Qed.

Lemma NoDup_fmap_eq {A B} (f : A → B) (l : list A) x y :
  NoDup (map f l) → x ∈ l → y ∈ l → f x = f y → x = y.
Proof.
  induction l as [|a l IH]; simpl; intros Hnodup Hx Hy Hf.
  - by apply elem_of_nil in Hx.
  - apply NoDup_cons in Hnodup as [Hnotin Hnodup].
    apply elem_of_cons in Hx as [->|Hx]; apply elem_of_cons in Hy as [->|Hy].
    + done.
    + destruct Hnotin. rewrite Hf. apply list_elem_of_fmap. by exists y.
    + destruct Hnotin. rewrite <- Hf. apply list_elem_of_fmap. by exists x.
    + by apply IH.
Qed.

Lemma omap_nil_iff {A B} (f : A → option B) (l : list A) :
  omap f l = [] ↔ ∀ x, x ∈ l → f x = None.
Proof.
  induction l as [|a l IH]; simpl.
  - split; [|done]. intros _ x Hx. by apply elem_of_nil in Hx.
  - destruct (f a) eqn:Hfa; split.
    + done.
    + intros Hall. specialize (Hall a (list_elem_of_here _ _)). congruence.
    + intros Hnil x [->|Hx]%elem_of_cons; [done|]. by apply IH.
    + intros Hall. apply IH. intros x Hx. apply Hall. by right.
Qed.

Lemma NoDup_omap_keys {A B K} (f : A → option B) (ka : A → K) (kb : B → K)
    (l : list A) :
  (∀ a b, f a = Some b → kb b = ka a) →
  NoDup (map ka l) → NoDup (map kb (omap f l)).
Proof.
  intros Hkey. induction l as [|a l IH]; simpl; intros Hnodup; [constructor|].
  apply NoDup_cons in Hnodup as [Hnotin Hnodup].
  destruct (f a) as [b|] eqn:Hfa; simpl; [|by apply IH].
  apply NoDup_cons. split; [|by apply IH].
  intros (b' & Hb' & (a' & Ha' & Hfa')%list_elem_of_omap)%list_elem_of_fmap.
  apply Hnotin, list_elem_of_fmap. exists a'. split; [|done].
  by rewrite <- (Hkey a b Hfa), <- (Hkey a' b' Hfa').
Qed.

Lemma changed_Some md5 open_rb prefix remote_etags rel_key path key path' :
  changed md5 open_rb prefix remote_etags (rel_key, path) = Some (key, path') →
  key = dest_key prefix rel_key ∧ path' = path.
Proof.
  unfold changed. simpl. destruct (get_local_etag _ _ _ _); [|done].
  case_bool_decide; [|done]. by intros [= <- <-].
Qed.

(** The changed entries of a second pass: there are none when the keys of
    the walk are distinct and every file of the walk is readable and has,
    as its fingerprint, the ETag the store lists for its content once
    uploaded, quotes stripped. *)
Lemma second_run_plans_nothing md5 open_rb store_etag
    (files : list (string * Path)) prefix objects :
  NoDup (map (λ entry, dest_key prefix entry.1) files) →
  (∀ rel_key path, (rel_key, path) ∈ files →
     ∃ content, open_rb path = Some content ∧
       get_local_etag md5 open_rb path default_chunk_size
         = Ok (Some (Str.strip dquote (store_etag content)))) →
  omap (changed md5 open_rb prefix
          (fill_etags
             (listing_after store_etag open_rb
                (omap (changed md5 open_rb prefix (fill_etags objects ∅)) files)
                objects) ∅))
       files = [].
Proof.
  intros Hnodup Hagree. unfold listing_after. rewrite fill_etags_app.
  set (remote1 := fill_etags objects ∅).
  set (plan1 := omap (changed md5 open_rb prefix remote1) files).
  set (stored := λ entry : string * Path,
         match open_rb entry.2 with
         | Some content => Some (entry.1, store_etag content)
         | None => None
         end).
  assert (NoDup (map fst (omap stored plan1))) as Hupnodup.
  { apply (NoDup_omap_keys stored fst fst).
    - intros [k p] [k' e]. unfold stored. simpl.
      destruct (open_rb p); [|done]. by intros [= <- _].
    - apply (NoDup_omap_keys _ (λ entry, dest_key prefix entry.1) fst); [|done].
      intros [rel p] [k p'] [-> _]%changed_Some. done. }
  apply omap_nil_iff. intros [rel path] Hfile.
  destruct (Hagree rel path Hfile) as (content & Hopen & Hetag).
  destruct (changed md5 open_rb prefix remote1 (rel, path)) as [[k p]|] eqn:Hch.
  - (* planned by the first run: now listed with its own ETag *)
    destruct (changed_Some _ _ _ _ _ _ _ _ Hch) as [-> ->].
    assert ((dest_key prefix rel, store_etag content) ∈ omap stored plan1) as Hin.
    { apply list_elem_of_omap. exists (dest_key prefix rel, path). split.
      - apply list_elem_of_omap. by exists (rel, path).
      - unfold stored. simpl. by rewrite Hopen. }
    unfold changed. simpl. rewrite Hetag.
    rewrite (fill_etags_lookup_in _ remote1 _ _ Hupnodup Hin).
    rewrite bool_decide_eq_false_2; [done|]. intros Hne. by apply Hne.
  - (* not planned: its key was not touched *)
    unfold changed in *. simpl in *. rewrite Hetag in *.
    rewrite fill_etags_lookup_notin; [by destruct (bool_decide _)|].
    intros ([key etag] & Hkey & Hin)%list_elem_of_fmap. simpl in Hkey. subst key.
    apply list_elem_of_omap in Hin as ([k p] & Hplan & Hstored).
    unfold stored in Hstored. simpl in Hstored.
    destruct (open_rb p); [|done]. injection Hstored as -> _.
    apply list_elem_of_omap in Hplan as ([rel' path'] & Hfile' & Hch').
    pose proof Hch' as [Hk ->]%changed_Some.
    assert ((rel', path') = (rel, path)) as [= -> ->]
      by (by apply (NoDup_fmap_eq (λ entry, dest_key prefix entry.1) files)).
    unfold changed in Hch'. simpl in Hch'. rewrite Hetag in Hch'.
    destruct (bool_decide _); done.
Qed.

Example second_run_plans_nothing_example :
  NoDup (map (λ entry : string * Path, dest_key "p" entry.1) [("a.txt", ["r"; "a.txt"])])
  ∧ (∀ rel_key path, (rel_key, path) ∈ [("a.txt", ["r"; "a.txt"])] →
       ∃ content, Demo.open_rb path = Some content ∧
         get_local_etag Demo.md5 Demo.open_rb path default_chunk_size
           = Ok (Some (Str.strip dquote (Demo.quoted (hexlify (Demo.md5 content))))))
  ∧ omap (changed Demo.md5 Demo.open_rb "p" (fill_etags [] ∅))
         [("a.txt", ["r"; "a.txt"])]
    = [("p/a.txt", ["r"; "a.txt"])]
  ∧ omap (changed Demo.md5 Demo.open_rb "p"
            (fill_etags
               (listing_after (λ content, Demo.quoted (hexlify (Demo.md5 content)))
                  Demo.open_rb
                  (omap (changed Demo.md5 Demo.open_rb "p" (fill_etags [] ∅))
                        [("a.txt", ["r"; "a.txt"])])
                  []) ∅))
         [("a.txt", ["r"; "a.txt"])]
    = [].
Proof.
  assert (NoDup (map (λ entry : string * Path, dest_key "p" entry.1)
                     [("a.txt", ["r"; "a.txt"])])) as Hnodup.
  { apply NoDup_cons. split; [by intros ?%elem_of_nil | apply NoDup_nil_2]. }
  assert (∀ rel_key path, (rel_key, path) ∈ [("a.txt", ["r"; "a.txt"])] →
            ∃ content, Demo.open_rb path = Some content ∧
              get_local_etag Demo.md5 Demo.open_rb path default_chunk_size
                = Ok (Some (Str.strip dquote (Demo.quoted (hexlify (Demo.md5 content))))))
    as Hagree.
  { intros rel_key path Hin.
    apply elem_of_cons in Hin as [Hin|Hin]; [|by apply elem_of_nil in Hin].
    injection Hin as -> ->. by exists [Demo.a; Demo.a; Demo.a]. }
  split; [exact Hnodup|]. split; [exact Hagree|]. split; [reflexivity|].
  exact (second_run_plans_nothing Demo.md5 Demo.open_rb
           (λ content, Demo.quoted (hexlify (Demo.md5 content)))
           [("a.txt", ["r"; "a.txt"])] "p" [] Hnodup Hagree).
Qed.

(** ** What a run of [sync] starts *)

Lemma interleave_elem_of jobs tr ev :
  interleave jobs tr → ev ∈ tr → ∃ j, j ∈ jobs ∧ ev ∈ j.
Proof.
  induction 1 as [jobs Hnil|jobs1 ev' j jobs2 tr Hinter IH]; [by intros ?%elem_of_nil|].
  intros [->|Hin]%elem_of_cons.
  - exists (ev' :: j). split; [|by left].
    apply elem_of_app. right. by left.
  - destruct (IH Hin) as (j' & Hj' & Hev).
    apply elem_of_app in Hj' as [Hj'|[->|Hj']%elem_of_cons].
    + exists j'. split; [|done]. apply elem_of_app. by left.
    + exists (ev' :: j). split; [|by right]. apply elem_of_app. right. by left.
    + exists j'. split; [|done]. apply elem_of_app. right. by right.
Qed.

Lemma run_call_only_lists c : Forall only_lists (run_call c).1.
Proof.
  unfold run_call, upload_file. destruct (u_verbose c); repeat constructor; by intros cmd.
Qed.

(** X24: the only sub-process a run of [sync] starts, under any schedule
    of the pool and with [dryrun] on or off, is the listing. *)
Lemma sync_only_lists md5 open_rb s3api_list fnmatch path_of stat
    source dest workers acl dryrun excludes verbose tr :
  sync_trace (sync md5 open_rb s3api_list fnmatch path_of stat
                source dest workers acl dryrun excludes verbose) tr →
  Forall only_lists tr.
Proof.
  assert (Forall only_lists
            (sync md5 open_rb s3api_list fnmatch path_of stat
               source dest workers acl dryrun excludes verbose).1) as Hown.
  { unfold sync. rewrite fst_bind. apply Forall_app. split.
    - unfold parse_s3_dest. destruct (negb _); [repeat constructor; by intros cmd|].
      destruct (split_once _ _) as [[??]|]; constructor.
    - destruct (parse_s3_dest dest).2 as [[bucket prefix]|]; [|constructor].
      destruct (stat (path_of source)) as [node|]; [|repeat constructor; by intros cmd].
      rewrite fst_bind. apply Forall_app. split.
      + unfold plan_uploads. rewrite fst_bind. apply Forall_app. split.
        * unfold get_remote_etags. rewrite fst_bind. apply Forall_app. split.
          -- repeat constructor. intros cmd [= <-]. eauto.
          -- simpl. destruct (s3api_list _); constructor.
        * destruct (get_remote_etags _ _ _).2 as [remote|]; [|constructor].
          eapply Forall_impl; [apply plan_loop_trace|].
          intros ev [line ->] cmd. done.
      + destruct (plan_uploads _ _ _ _ _ _ _).2 as [to_upload|]; [|constructor].
        destruct (length to_upload =? 0)%nat; [repeat constructor; by intros cmd|].
        unfold thread_pool. destruct (workers <=? 0); repeat constructor; by intros cmd. }
  unfold sync_trace.
  destruct (sync _ _ _ _ _ _ _ _ _ _ _ _ _) as [t [calls|e]]; simpl in Hown.
  - intros (sched & Hinter & ->). apply Forall_app. split; [done|].
    apply Forall_forall. intros ev Hev.
    destruct (interleave_elem_of _ _ _ Hinter Hev) as (j & Hj & Hin).
    apply list_elem_of_fmap in Hj as (c & -> & _).
    pose proof (run_call_only_lists c) as Hc. rewrite Forall_forall in Hc. by apply Hc.
  - by intros ->.
Qed.

(** * Further properties of the code *)

(** ** Strings *)

Lemma app_String a s t : String a s +:+ t = String a (s +:+ t).
Proof. reflexivity. Qed.

Lemma app_Empty t : EmptyString +:+ t = t.
Proof. reflexivity. Qed.

Lemma contains_char_app c s t :
  contains_char c (s +:+ t) = contains_char c s || contains_char c t.
Proof.
  induction s as [|a s IH]; [done|]. simpl.
  by destruct (Ascii.eqb a c).
Qed.

Lemma lstrip_no_head c s :
  match s with EmptyString => True | String a _ => a ≠ c end →
  Str.lstrip c s = s.
Proof.
  destruct s as [|a s]; [done|]. simpl. intros Hne.
  by destruct (Ascii.eqb_spec a c).
Qed.

Lemma rstrip_snoc c s :
  contains_char c s = false → Str.rstrip c (s +:+ String c EmptyString) = s.
Proof.
  induction s as [|a s IH]; simpl.
  - intros _. by rewrite Ascii.eqb_refl.
  - destruct (Ascii.eqb_spec a c) as [->|Hne]; [done|]. intros Hs.
    rewrite (IH Hs). destruct s; [|done].
    by destruct (Ascii.eqb_spec a c).
Qed.

Lemma prefix_drop_chars p s :
  String.prefix p s = true → s = p +:+ drop_chars (String.length p) s.
Proof.
  revert s. induction p as [|a p IH]; intros s; [done|].
  destruct s as [|b s]; [done|]. simpl.
  destruct (ascii_dec a b) as [->|]; [|done].
  intros H. rewrite app_String. f_equal. by apply IH.
Qed.

Lemma prefix_app_self p s : String.prefix p (p +:+ s) = true.
Proof.
  induction p as [|a p IH]; simpl; [by destruct s|].
  by destruct (ascii_dec a a).
Qed.

Lemma split_once_app c bucket rest :
  contains_char c bucket = false →
  split_once c (bucket +:+ String c rest) = Some (bucket, rest).
Proof.
  induction bucket as [|a s IH]; simpl.
  - intros _. by rewrite Ascii.eqb_refl.
  - destruct (Ascii.eqb a c); [done|]. intros Hs. by rewrite (IH Hs).
Qed.

Lemma split_once_none c s :
  split_once c s = None ↔ contains_char c s = false.
Proof.
  induction s as [|a s IH]; simpl; [done|].
  destruct (Ascii.eqb a c); [done|].
  destruct (split_once c s) as [[l r]|]; [|tauto].
  split; [done|]. intros H. by apply IH in H.
Qed.

Lemma split_once_some c s l r :
  split_once c s = Some (l, r) →
  s = l +:+ String c r ∧ contains_char c l = false.
Proof.
  revert l. induction s as [|a s IH]; intros l; simpl; [done|].
  destruct (Ascii.eqb_spec a c) as [->|Hne].
  - by intros [= <- <-].
  - destruct (split_once c s) as [[l' r']|]; [|done]. intros [= <- <-].
    destruct (IH l' eq_refl) as [-> Hl']. split; [done|]. simpl.
    by destruct (Ascii.eqb_spec a c).
Qed.

(** ** [parse_s3_dest] *)

(** X1: a destination [s3://bucket/prefix], with a bucket name free of
    separators, parses into that bucket and prefix, printing nothing; the
    prefix may hold separators and may be empty.  Without anything after
    the bucket name the prefix is empty. *)
Theorem parse_s3_dest_of_parts bucket prefix :
  contains_char slash bucket = false →
  parse_s3_dest ("s3://" +:+ bucket +:+ "/" +:+ prefix) = ([], Ok (bucket, prefix))
  ∧ parse_s3_dest ("s3://" +:+ bucket) = ([], Ok (bucket, EmptyString)).
Proof.
  intros Hbucket. unfold parse_s3_dest, Str.startswith.
  rewrite !prefix_app_self.
  change (drop_chars 5 ("s3://" +:+ bucket +:+ "/" +:+ prefix))
    with (bucket +:+ String slash prefix).
  change (drop_chars 5 ("s3://" +:+ bucket)) with bucket.
  simpl. rewrite (split_once_app slash bucket prefix Hbucket).
  apply split_once_none in Hbucket. by rewrite Hbucket.
Qed.

Lemma parse_s3_dest_of_parts_witness :
  contains_char slash "my-bucket" = false
  ∧ parse_s3_dest "s3://my-bucket/site/assets" = ([], Ok ("my-bucket", "site/assets"))
  ∧ parse_s3_dest "s3://my-bucket" = ([], Ok ("my-bucket", EmptyString)).
Proof.
  split; [reflexivity|].
  exact (parse_s3_dest_of_parts "my-bucket" "site/assets" eq_refl).
Defined.

(** X2: when [parse_s3_dest] returns, the bucket holds no separator and
    the destination is [s3://] followed by the bucket, and then either
    nothing, with an empty prefix, or a separator and the prefix. *)
Theorem parse_s3_dest_parts dest bucket prefix :
  (parse_s3_dest dest).2 = Ok (bucket, prefix) →
  contains_char slash bucket = false
  ∧ (dest = "s3://" +:+ bucket +:+ "/" +:+ prefix
     ∨ (dest = "s3://" +:+ bucket ∧ prefix = EmptyString)).
Proof.
  unfold parse_s3_dest.
  destruct (Str.startswith "s3://" dest) eqn:Hstart; [|done].
  apply prefix_drop_chars in Hstart.
  change (String.length "s3://") with 5%nat in Hstart.
  remember (drop_chars 5 dest) as rest eqn:Hrest. clear Hrest. subst dest. simpl.
  destruct (split_once slash rest) as [[l r]|] eqn:Hsplit; simpl.
  - intros [= -> ->]. apply split_once_some in Hsplit as [-> Hno].
    split; [done|]. by left.
  - intros [= <- <-]. apply split_once_none in Hsplit.
    split; [done|]. by right.
Qed.

Lemma parse_s3_dest_parts_witness :
  (parse_s3_dest "s3://bkt/p/q").2 = Ok ("bkt", "p/q")
  ∧ contains_char slash "bkt" = false
  ∧ ("s3://bkt/p/q" = "s3://" +:+ "bkt" +:+ "/" +:+ "p/q"
     ∨ ("s3://bkt/p/q" = "s3://" +:+ "bkt" ∧ "p/q" = EmptyString)).
Proof.
  split; [reflexivity|].
  exact (parse_s3_dest_parts "s3://bkt/p/q" "bkt" "p/q" eq_refl).
Defined.

(** ** Input errors of [sync] *)

(** X3: when the destination does not start with [s3://], or when it does
    and nothing exists at the source path, [sync] exits with status 1
    after printing one message: it lists nothing, reads no file and
    submits no upload. *)
Theorem sync_rejects_bad_input md5 open_rb s3api_list fnmatch path_of stat
    source dest workers acl dryrun excludes verbose :
  Str.startswith "s3://" dest = false ∨ stat (path_of source) = None →
  ∃ message,
    sync md5 open_rb s3api_list fnmatch path_of stat
      source dest workers acl dryrun excludes verbose
    = ([Printed message], Err (SystemExit 1)).
Proof.
  intros Hbad. unfold sync, parse_s3_dest.
  destruct (Str.startswith "s3://" dest) eqn:Hstart.
  - destruct Hbad as [?|Hstat]; [done|]. simpl negb. cbv iota.
    destruct (split_once slash (drop_chars 5 dest)) as [[bucket prefix]|];
      unfold ret; rewrite bind_ret_l, Hstat; by eexists.
  - by eexists.
Qed.

Lemma sync_rejects_bad_input_witness :
  (Str.startswith "s3://" "bkt/p" = false ∨ Demo.stat (Demo.path_of "r") = None)
  ∧ ∃ message,
      sync Demo.md5 Demo.open_rb Demo.empty_bucket Demo.fnmatch Demo.path_of Demo.stat
        "r" "bkt/p" 4 None false [] false
      = ([Printed message], Err (SystemExit 1)).
Proof.
  assert (Str.startswith "s3://" "bkt/p" = false ∨ Demo.stat (Demo.path_of "r") = None)
    as Hbad by (left; reflexivity).
  split; [exact Hbad|].
  exact (sync_rejects_bad_input Demo.md5 Demo.open_rb Demo.empty_bucket Demo.fnmatch
           Demo.path_of Demo.stat "r" "bkt/p" 4 None false [] false Hbad).
Defined.

(** ** The dictionary of remote ETags *)

Lemma fill_etags_lookup_last objects etags key :
  fill_etags objects etags !! key =
    match last (filter (λ obj, obj.1 = key) objects) with
    | Some obj => Some (Str.strip dquote obj.2)
    | None => etags !! key
    end.
Proof.
  revert etags. induction objects as [|[k e] rest IH]; intros etags; [done|].
  simpl fill_etags. rewrite IH, filter_cons. simpl.
  destruct (decide (k = key)) as [->|Hne].
  - rewrite last_cons. destruct (last (filter _ rest)); [done|].
    simpl. by rewrite lookup_insert_eq.
  - destruct (last (filter _ rest)); [done|]. by rewrite lookup_insert_ne.
Qed.

(** X4: when the listing succeeds, [get_remote_etags] returns a dictionary
    in which a key maps to the ETag of the last listed object with that
    key, its surrounding quotes stripped, and a key that is not listed is
    missing. *)
Theorem get_remote_etags_lookup s3api_list bucket prefix objects :
  s3api_list (list_cmd bucket prefix) = Some objects →
  ∃ remote_etags,
    (get_remote_etags s3api_list bucket prefix).2 = Ok remote_etags
    ∧ ∀ key,
        remote_etags !! key =
          (λ obj, Str.strip dquote obj.2) <$> last (filter (λ obj, obj.1 = key) objects).
Proof.
  intros Hlist. exists (fill_etags objects ∅). split.
  - unfold get_remote_etags. rewrite snd_bind. simpl. by rewrite Hlist.
  - intros key. rewrite fill_etags_lookup_last.
    by destruct (last (filter _ objects)).
Qed.

Lemma get_remote_etags_lookup_witness :
  (λ _ : list string, Some [("k", "v1"); ("j", "w"); ("k", Demo.quoted "v2")])
    (list_cmd "bkt" "p")
  = Some [("k", "v1"); ("j", "w"); ("k", Demo.quoted "v2")]
  ∧ ∃ remote_etags : gmap string string,
      (get_remote_etags
         (λ _, Some [("k", "v1"); ("j", "w"); ("k", Demo.quoted "v2")]) "bkt" "p").2
        = Ok remote_etags
      ∧ remote_etags !! "k" = Some "v2" ∧ remote_etags !! "z" = None.
Proof.
  split; [reflexivity|].
  destruct (get_remote_etags_lookup
              (λ _, Some [("k", "v1"); ("j", "w"); ("k", Demo.quoted "v2")])
              "bkt" "p" _ eq_refl) as (remote_etags & Hrun & Hlookup).
  exists remote_etags. split; [exact Hrun|].
  split; [exact (Hlookup "k") | exact (Hlookup "z")].
Defined.

Lemma strip_quoted etag :
  contains_char dquote etag = false →
  Str.strip dquote (String dquote (etag +:+ String dquote EmptyString)) = etag.
Proof.
  intros Hno. unfold Str.strip. simpl.
  destruct etag as [|a etag]; [reflexivity|].
  rewrite lstrip_no_head.
  - by apply rstrip_snoc.
  - simpl in *. by destruct (Ascii.eqb_spec a dquote).
Qed.

(** X5: stripping the quotes recovers an ETag that the listing gives in
    quotes, when the ETag itself holds no quote: the dictionary built from
    such a listing maps the key to the bare ETag. *)
Theorem strip_quoted_etag key etag :
  contains_char dquote etag = false →
  fill_etags [(key, String dquote (etag +:+ String dquote EmptyString))] ∅ !! key
    = Some etag.
Proof.
  intros Hno. simpl. rewrite lookup_insert_eq. f_equal. by apply strip_quoted.
Qed.

Lemma strip_quoted_etag_witness :
  contains_char dquote "d41d8cd98f00b204e9800998ecf8427e" = false
  ∧ fill_etags
      [("e.txt",
        String dquote ("d41d8cd98f00b204e9800998ecf8427e" +:+ String dquote EmptyString))]
      ∅ !! "e.txt"
    = Some "d41d8cd98f00b204e9800998ecf8427e".
Proof.
  split; [reflexivity|].
  exact (strip_quoted_etag "e.txt" "d41d8cd98f00b204e9800998ecf8427e" eq_refl).
Defined.

(** ** More on the fingerprint *)


Lemma chunk_count_bounds cs len :
  (0 < cs)%nat → (0 < len)%nat →
  ((chunk_count cs len - 1) * cs < len ≤ chunk_count cs len * cs)%nat.
Proof.
  intros Hcs Hlen. unfold chunk_count.
  pose proof (Nat.div_mod_eq (len + cs - 1) cs) as Hdiv.
  pose proof (Nat.mod_upper_bound (len + cs - 1) cs ltac:(lia)) as Hmod.
  set (q := ((len + cs - 1) / cs)%nat) in *.
  assert (1 ≤ q)%nat by (destruct q; [lia | lia]).
  nia.
Qed.

Lemma chunks_lookup cs data i part :
  (0 < cs)%nat → chunks cs data !! i = Some part →
  part = take cs (drop (i * cs) data) ∧ (i * cs < length data)%nat
  ∧ (i < length (chunks cs data))%nat.
Proof.
  intros Hcs Hi. pose proof (lookup_lt_Some _ _ _ Hi) as Hlt.
  unfold chunks in *. rewrite list_lookup_fmap in Hi.
  rewrite length_map, length_seq in Hlt.
  rewrite lookup_seq_lt in Hi by done. simpl in Hi. injection Hi as <-.
  split; [done|]. split; [|by rewrite length_map, length_seq].
  destruct (decide (length data = 0)%nat) as [H0|Hpos].
  - rewrite H0, chunk_count_0 in Hlt. lia.
  - pose proof (chunk_count_bounds cs (length data) Hcs ltac:(lia)). nia.
Qed.

(** X7: for a positive chunk size the loop of [get_local_etag] ends and
    leaves the digests of consecutive parts of the file: put together the
    parts are the file, none is empty, each but the last has exactly
    [chunk_size] bytes and the last has at most that many. *)
Theorem read_loop_reads_whole_file md5 (cs : Z) content :
  0 < cs →
  ∃ parts,
    read_loop md5 (S (length content)) cs content [] = Some (Ok (map md5 parts))
    ∧ concat parts = content
    ∧ (∀ i part, parts !! i = Some part →
         (0 < length part ≤ Z.to_nat cs)%nat
         ∧ ((S i < length parts)%nat → length part = Z.to_nat cs)).
Proof.
  intros Hcs. exists (chunks (Z.to_nat cs) content).
  assert (0 < Z.to_nat cs)%nat as Hpos by lia.
  split; [|split].
  - rewrite <- (Z2Nat.id cs) at 1 by lia. by rewrite read_loop_pos by lia.
  - by apply concat_chunks.
  - intros i part Hi.
    destruct (chunks_lookup _ _ _ _ Hpos Hi) as (-> & Hlt & Hlen).
    rewrite length_take, length_drop. split; [lia|].
    intros Hnext. unfold chunks in Hnext. rewrite length_map, length_seq in Hnext.
    pose proof (chunk_count_bounds (Z.to_nat cs) (length content) Hpos ltac:(lia)).
    nia.
Qed.

Lemma read_loop_reads_whole_file_witness :
  0 < 3
  ∧ ∃ parts,
      read_loop Demo.md5 (S (length (replicate 7 Demo.a))) 3 (replicate 7 Demo.a) []
        = Some (Ok (map Demo.md5 parts))
      ∧ concat parts = replicate 7 Demo.a.
Proof.
  split; [reflexivity|].
  destruct (read_loop_reads_whole_file Demo.md5 3 (replicate 7 Demo.a) eq_refl)
    as (parts & Hloop & Hconcat & _).
  exists parts. split; [exact Hloop | exact Hconcat].
Defined.



(** ** The characters of a fingerprint *)

Lemma hex_byte_digits b :
  ∃ c1 c2 hi lo,
    hex_byte b = String c1 (String c2 EmptyString)
    ∧ unhex_digit c1 = Some hi ∧ unhex_digit c2 = Some lo
    ∧ Byte.of_N (16 * hi + lo) = Some b.
Proof. destruct b; do 4 eexists; repeat split. Qed.

Lemma unhexlify_pair c1 c2 s :
  unhexlify (String c1 (String c2 s)) =
    match unhex_digit c1, unhex_digit c2, unhexlify s with
    | Some hi, Some lo, Some bs =>
        match Byte.of_N (16 * hi + lo) with
        | Some b => Some (b :: bs)
        | None => None
        end
    | _, _, _ => None
    end.
Proof. reflexivity. Qed.

Lemma unhexlify_hexlify bs : unhexlify (hexlify bs) = Some bs.
Proof.
  induction bs as [|b bs IH]; [done|].
  change (hexlify (b :: bs)) with (hex_byte b +:+ hexlify bs).
  destruct (hex_byte_digits b) as (c1 & c2 & hi & lo & -> & Hhi & Hlo & Hb).
  change (String c1 (String c2 EmptyString) +:+ hexlify bs)
    with (String c1 (String c2 (hexlify bs))).
  by rewrite unhexlify_pair, Hhi, Hlo, IH, Hb.
Qed.

Lemma hexlify_inj bs1 bs2 : hexlify bs1 = hexlify bs2 → bs1 = bs2.
Proof.
  intros Heq. pose proof (unhexlify_hexlify bs1) as H1.
  rewrite Heq, unhexlify_hexlify in H1. by injection H1.
Qed.

(** A character that is no hexadecimal digit does not occur in a hex
    digest. *)
Lemma hexlify_chars c bs :
  unhex_digit c = None → contains_char c (hexlify bs) = false.
Proof.
  intros Hc. induction bs as [|b bs IH]; [done|].
  change (hexlify (b :: bs)) with (hex_byte b +:+ hexlify bs).
  rewrite contains_char_app, IH, orb_false_r.
  destruct (hex_byte_digits b) as (c1 & c2 & hi & lo & -> & Hhi & Hlo & _).
  simpl. destruct (Ascii.eqb_spec c1 c) as [->|_]; [congruence|].
  destruct (Ascii.eqb_spec c2 c) as [->|_]; [congruence|]. done.
Qed.

Lemma of_nat_no_quote n : contains_char dquote (Str.of_nat n) = false.
Proof.
  assert (∀ d, contains_char dquote (NilEmpty.string_of_uint d) = false) as Hdigits
    by (induction d; simpl; done).
  unfold Str.of_nat, NilZero.string_of_uint.
  destruct (Nat.to_uint n); [reflexivity | apply Hdigits ..].
Qed.

Section FingerprintShape.

Variable md5 : list byte → list byte.
Variable open_rb : Path → option (list byte).

(** The two forms a fingerprint has. *)
Lemma get_local_etag_forms path cs etag :
  get_local_etag md5 open_rb path cs = Ok (Some etag) →
  (∃ bs, etag = hexlify bs)
  ∨ (∃ bs n, etag = hexlify bs +:+ "-" +:+ Str.of_nat n).
Proof.
  unfold get_local_etag. destruct (open_rb path) as [content|]; [|done].
  destruct (read_loop _ _ _ _ _) as [[md5s|e]|]; [|done|done].
  destruct md5s as [|d1 [|d2 ds]]; [done | |]; intros [= <-]; eauto.
Qed.

End FingerprintShape.

(** X9: for a positive chunk size, a file that fits in one chunk and a
    file that does not never have the same fingerprint: only the second
    holds a dash. *)
Theorem simple_and_composite_etags_differ md5 open_rb path1 path2 (cs : Z)
    content1 content2 :
  open_rb path1 = Some content1 → open_rb path2 = Some content2 →
  0 < cs →
  (0 < length content1)%nat → Z.of_nat (length content1) ≤ cs →
  cs < Z.of_nat (length content2) →
  get_local_etag md5 open_rb path1 cs ≠ get_local_etag md5 open_rb path2 cs.
Proof.
  intros Hopen1 Hopen2 Hcs Hne Hsmall Hlarge.
  rewrite <- (Z2Nat.id cs) by lia.
  rewrite (get_local_etag_pos md5 open_rb path1 _ content1) by (done || lia).
  rewrite (get_local_etag_pos md5 open_rb path2 _ content2) by (done || lia).
  rewrite chunk_count_small by lia.
  pose proof (chunk_count_large (Z.to_nat cs) (length content2)) as Hcount.
  destruct (chunk_count (Z.to_nat cs) (length content2)) as [|[|n]]; [lia | lia |].
  intros [= Heq].
  assert (contains_char "-" (hexlify (md5 content1)) = false) as Hno
    by (by apply hexlify_chars).
  rewrite Heq, contains_char_app in Hno. simpl in Hno.
  by rewrite orb_true_r in Hno.
Qed.

Lemma simple_and_composite_etags_differ_witness :
  Demo.open_rb ["r"; "a.txt"] = Some (replicate 3 Demo.a)
  ∧ Demo.open_rb ["r"; "big"] = Some (replicate 7 Demo.a)
  ∧ 0 < 3 ∧ (0 < length (replicate 3 Demo.a))%nat
  ∧ Z.of_nat (length (replicate 3 Demo.a)) ≤ 3
  ∧ 3 < Z.of_nat (length (replicate 7 Demo.a))
  ∧ get_local_etag Demo.md5 Demo.open_rb ["r"; "a.txt"] 3
    ≠ get_local_etag Demo.md5 Demo.open_rb ["r"; "big"] 3.
Proof.
  assert (0 < length (replicate 3 Demo.a))%nat as H1 by (simpl; lia).
  assert (Z.of_nat (length (replicate 3 Demo.a)) ≤ 3) as H2 by (simpl; lia).
  assert (3 < Z.of_nat (length (replicate 7 Demo.a))) as H3 by (simpl; lia).
  split; [reflexivity|]. split; [reflexivity|]. split; [reflexivity|].
  split; [exact H1|]. split; [exact H2|]. split; [exact H3|].
  exact (simple_and_composite_etags_differ Demo.md5 Demo.open_rb
           ["r"; "a.txt"] ["r"; "big"] 3 (replicate 3 Demo.a) (replicate 7 Demo.a)
           eq_refl eq_refl eq_refl H1 H2 H3).
Defined.

(** X10: two files that each fit in one chunk have the same fingerprint
    exactly when their contents have the same digest: the hex encoding
    loses nothing. *)
Theorem simple_etags_equal_iff_digests md5 open_rb path1 path2 (cs : Z)
    content1 content2 :
  open_rb path1 = Some content1 → open_rb path2 = Some content2 →
  (0 < length content1)%nat → Z.of_nat (length content1) ≤ cs →
  (0 < length content2)%nat → Z.of_nat (length content2) ≤ cs →
  get_local_etag md5 open_rb path1 cs = get_local_etag md5 open_rb path2 cs
  ↔ md5 content1 = md5 content2.
Proof.
  intros Hopen1 Hopen2 Hne1 Hsmall1 Hne2 Hsmall2.
  rewrite <- (Z2Nat.id cs) by lia.
  rewrite (get_local_etag_pos md5 open_rb path1 _ content1) by (done || lia).
  rewrite (get_local_etag_pos md5 open_rb path2 _ content2) by (done || lia).
  rewrite !chunk_count_small by lia. split.
  - intros [= Heq]. by apply hexlify_inj.
  - by intros ->.
Qed.

Lemma simple_etags_equal_iff_digests_witness :
  Demo.open_rb ["r"; "a.txt"] = Some (replicate 3 Demo.a)
  ∧ Demo.open_rb ["r"; "big"] = Some (replicate 7 Demo.a)
  ∧ (0 < length (replicate 3 Demo.a))%nat
  ∧ Z.of_nat (length (replicate 3 Demo.a)) ≤ 8
  ∧ (0 < length (replicate 7 Demo.a))%nat
  ∧ Z.of_nat (length (replicate 7 Demo.a)) ≤ 8
  ∧ (get_local_etag Demo.md5 Demo.open_rb ["r"; "a.txt"] 8
       = get_local_etag Demo.md5 Demo.open_rb ["r"; "big"] 8
     ↔ Demo.md5 (replicate 3 Demo.a) = Demo.md5 (replicate 7 Demo.a)).
Proof.
  assert (0 < length (replicate 3 Demo.a))%nat as H1 by (simpl; lia).
  assert (Z.of_nat (length (replicate 3 Demo.a)) ≤ 8) as H2 by (simpl; lia).
  assert (0 < length (replicate 7 Demo.a))%nat as H3 by (simpl; lia).
  assert (Z.of_nat (length (replicate 7 Demo.a)) ≤ 8) as H4 by (simpl; lia).
  split; [reflexivity|]. split; [reflexivity|].
  split; [exact H1|]. split; [exact H2|]. split; [exact H3|]. split; [exact H4|].
  exact (simple_etags_equal_iff_digests Demo.md5 Demo.open_rb
           ["r"; "a.txt"] ["r"; "big"] 8 (replicate 3 Demo.a) (replicate 7 Demo.a)
           eq_refl eq_refl H1 H2 H3 H4).
Defined.

(** X11: a fingerprint holds no quote, so a listing that gives it in
    quotes is read back, by the [strip] of [get_remote_etags], as the
    fingerprint itself. *)
Theorem quoted_fingerprint_is_read_back md5 open_rb path cs etag key :
  get_local_etag md5 open_rb path cs = Ok (Some etag) →
  contains_char dquote etag = false
  ∧ fill_etags [(key, String dquote (etag +:+ String dquote EmptyString))] ∅ !! key
    = Some etag.
Proof.
  intros Hetag.
  assert (contains_char dquote etag = false) as Hno.
  { destruct (get_local_etag_forms md5 open_rb path cs etag Hetag)
      as [[bs ->]|(bs & n & ->)].
    - by apply hexlify_chars.
    - rewrite !contains_char_app, hexlify_chars, of_nat_no_quote by done. done. }
  split; [done|]. simpl. rewrite lookup_insert_eq. f_equal. by apply strip_quoted.
Qed.

Lemma quoted_fingerprint_is_read_back_witness :
  get_local_etag Demo.md5 Demo.open_rb ["r"; "big"] 3 = Ok (Some "0603-3")
  ∧ contains_char dquote "0603-3" = false
  ∧ fill_etags [("k", String dquote ("0603-3" +:+ String dquote EmptyString))] ∅ !! "k"
    = Some "0603-3".
Proof.
  split; [reflexivity|].
  exact (quoted_fingerprint_is_read_back Demo.md5 Demo.open_rb ["r"; "big"] 3 "0603-3"
           "k" eq_refl).
Defined.

(** ** More on the planner *)

Section PlanProperties.

Variable md5 : list byte → list byte.
Variable open_rb : Path → option (list byte).
Variable s3api_list : list string → option (list (string * string)).

(** A plan that is returned is made of the changed entries. *)
Lemma plan_uploads_Ok (files : list (string * Path)) bucket prefix verbose to_upload :
  (plan_uploads md5 open_rb s3api_list files bucket prefix verbose).2 = Ok to_upload →
  ∃ objects,
    s3api_list (list_cmd bucket prefix) = Some objects
    ∧ first_unreadable open_rb files = None
    ∧ to_upload = omap (changed md5 open_rb prefix (fill_etags objects ∅)) files.
Proof.
  intros Hplan.
  destruct (s3api_list (list_cmd bucket prefix)) as [objects|] eqn:Hlist.
  - rewrite (plan_uploads_result md5 open_rb s3api_list _ _ _ _ objects Hlist) in Hplan.
    destruct (first_unreadable open_rb files); [done|]. injection Hplan as <-.
    by exists objects.
  - by rewrite (plan_uploads_fails md5 open_rb s3api_list _ _ _ _ Hlist) in Hplan.
Qed.

Lemma changed_sublist prefix remote_etags (files : list (string * Path)) :
  omap (changed md5 open_rb prefix remote_etags) files
    `sublist_of` map (λ entry, (dest_key prefix entry.1, entry.2)) files.
Proof.
  induction files as [|[rel path] files IH]; simpl; [constructor|].
  destruct (changed md5 open_rb prefix remote_etags (rel, path)) as [[k p]|] eqn:Hch.
  - apply changed_Some in Hch as [-> ->]. by constructor.
  - by constructor.
Qed.

Lemma plan_loop_lines (files : list (string * Path)) prefix verbose remote_etags to_upload :
  first_unreadable open_rb files = None →
  (plan_loop md5 open_rb files prefix verbose remote_etags to_upload).1 =
    if verbose
    then map (planned_line md5 open_rb remote_etags)
             (omap (changed md5 open_rb prefix remote_etags) files)
    else [].
Proof.
  revert to_upload. induction files as [|[rel path] files IH]; intros to_upload; simpl.
  - intros _. by destruct verbose.
  - rewrite fst_bind. unfold changed at 1. simpl.
    pose proof (get_local_etag_cases md5 open_rb path default_chunk_size
                  default_chunk_size_valid) as Hcases.
    destruct (open_rb path) as [content|]; [|done]. intros Hfirst.
    destruct Hcases as [etag Hetag]. rewrite Hetag.
    destruct (bool_decide (etag ≠ remote_etags !! dest_key prefix rel)).
    + rewrite fst_bind, snd_when. simpl.
      replace (if verbose then Ok () else Ok ()) with (@Ok unit ()) by (by destruct verbose).
      rewrite (IH _ Hfirst). destruct verbose; simpl; [|done].
      unfold planned_line. cbn [fst snd]. by rewrite Hetag.
    + by apply IH.
Qed.

End PlanProperties.

(** X12: when the listing succeeds and every file of the walk can be read,
    [plan_uploads] returns a plan, and the plan holds a key and path
    exactly when the walk has an entry with that path whose destination
    key is the key and whose fingerprint is not what the remote dictionary
    has under the key. *)
Theorem plan_holds_the_changed_entries md5 open_rb s3api_list
    (files : list (string * Path)) bucket prefix verbose objects :
  s3api_list (list_cmd bucket prefix) = Some objects →
  (∀ rel_key path, (rel_key, path) ∈ files → is_Some (open_rb path)) →
  ∃ to_upload,
    (plan_uploads md5 open_rb s3api_list files bucket prefix verbose).2 = Ok to_upload
    ∧ ∀ key path,
        (key, path) ∈ to_upload ↔
        ∃ rel_key local_etag,
          (rel_key, path) ∈ files ∧ key = dest_key prefix rel_key
          ∧ get_local_etag md5 open_rb path default_chunk_size = Ok local_etag
          ∧ local_etag ≠ fill_etags objects ∅ !! key.
Proof.
  intros Hlist Hreadable%first_unreadable_None.
  rewrite (plan_uploads_result md5 open_rb s3api_list _ _ _ _ objects Hlist), Hreadable.
  eexists. split; [done|]. intros key path. apply elem_of_changed.
Qed.

Lemma plan_holds_the_changed_entries_witness :
  Demo.empty_bucket (list_cmd "bkt" "p") = Some []
  ∧ (∀ rel_key path,
       (rel_key, path) ∈ [("a.txt", ["r"; "a.txt"]); ("e.txt", ["r"; "e.txt"])] →
       is_Some (Demo.open_rb path))
  ∧ ∃ to_upload,
      (plan_uploads Demo.md5 Demo.open_rb Demo.empty_bucket
         [("a.txt", ["r"; "a.txt"]); ("e.txt", ["r"; "e.txt"])] "bkt" "p" false).2
        = Ok to_upload.
Proof.
  assert (∀ rel_key path,
            (rel_key, path) ∈ [("a.txt", ["r"; "a.txt"]); ("e.txt", ["r"; "e.txt"])] →
            is_Some (Demo.open_rb path)) as Hreadable.
  { intros rel_key path Hin.
    apply elem_of_cons in Hin as [Hin|Hin]; [injection Hin as -> ->; by eexists|].
    apply elem_of_cons in Hin as [Hin|Hin]; [injection Hin as -> ->; by eexists|].
    by apply elem_of_nil in Hin. }
  split; [reflexivity|]. split; [exact Hreadable|].
  destruct (plan_holds_the_changed_entries Demo.md5 Demo.open_rb Demo.empty_bucket
              [("a.txt", ["r"; "a.txt"]); ("e.txt", ["r"; "e.txt"])] "bkt" "p" false []
              eq_refl Hreadable) as (to_upload & Hplan & _).
  exists to_upload. exact Hplan.
Defined.

(** X13: a local file with at least one byte whose destination key the
    remote state lacks is in the plan, when the listing succeeds and every
    file of the walk can be read. *)
Theorem new_nonempty_file_is_planned md5 open_rb s3api_list
    (files : list (string * Path)) bucket prefix verbose objects rel_key path content :
  s3api_list (list_cmd bucket prefix) = Some objects →
  (∀ r p, (r, p) ∈ files → is_Some (open_rb p)) →
  (rel_key, path) ∈ files →
  open_rb path = Some content → content ≠ [] →
  fill_etags objects ∅ !! dest_key prefix rel_key = None →
  ∃ to_upload,
    (plan_uploads md5 open_rb s3api_list files bucket prefix verbose).2 = Ok to_upload
    ∧ (dest_key prefix rel_key, path) ∈ to_upload.
Proof.
  intros Hlist Hreadable%first_unreadable_None Hin Hopen Hne Hmissing.
  rewrite (plan_uploads_result md5 open_rb s3api_list _ _ _ _ objects Hlist), Hreadable.
  eexists. split; [done|]. apply elem_of_changed.
  destruct (get_local_etag_nonempty md5 open_rb path default_chunk_size content
              Hopen Hne ltac:(done) default_chunk_size_valid) as [etag Hetag].
  exists rel_key, (Some etag). by rewrite Hmissing.
Qed.

Lemma new_nonempty_file_is_planned_witness :
  Demo.empty_bucket (list_cmd "bkt" "p") = Some []
  ∧ ("a.txt", ["r"; "a.txt"]) ∈ [("a.txt", ["r"; "a.txt"])]
  ∧ Demo.open_rb ["r"; "a.txt"] = Some (replicate 3 Demo.a)
  ∧ replicate 3 Demo.a ≠ []
  ∧ fill_etags [] ∅ !! dest_key "p" "a.txt" = None
  ∧ ∃ to_upload,
      (plan_uploads Demo.md5 Demo.open_rb Demo.empty_bucket
         [("a.txt", ["r"; "a.txt"])] "bkt" "p" false).2 = Ok to_upload
      ∧ (dest_key "p" "a.txt", ["r"; "a.txt"]) ∈ to_upload.
Proof.
  assert (("a.txt", ["r"; "a.txt"]) ∈ [("a.txt", ["r"; "a.txt"])]) as Hin by left.
  assert (replicate 3 Demo.a ≠ []) as Hne by discriminate.
  assert (∀ r p, (r, p) ∈ [("a.txt", ["r"; "a.txt"])] → is_Some (Demo.open_rb p))
    as Hreadable.
  { intros r p Hrp.
    apply elem_of_cons in Hrp as [Hrp|Hrp]; [injection Hrp as -> ->; by eexists|].
    by apply elem_of_nil in Hrp. }
  split; [reflexivity|]. split; [exact Hin|]. split; [reflexivity|].
  split; [exact Hne|]. split; [reflexivity|].
  exact (new_nonempty_file_is_planned Demo.md5 Demo.open_rb Demo.empty_bucket
           [("a.txt", ["r"; "a.txt"])] "bkt" "p" false [] "a.txt" ["r"; "a.txt"]
           (replicate 3 Demo.a) eq_refl Hreadable Hin eq_refl Hne eq_refl).
Defined.

(** X14: a file whose fingerprint is the ETag listed under its destination
    key, quotes stripped, is in no plan that [plan_uploads] returns. *)
Theorem unchanged_file_is_not_planned md5 open_rb s3api_list
    (files : list (string * Path)) bucket prefix verbose objects rel_key path etag :
  s3api_list (list_cmd bucket prefix) = Some objects →
  get_local_etag md5 open_rb path default_chunk_size = Ok (Some etag) →
  fill_etags objects ∅ !! dest_key prefix rel_key = Some etag →
  ∀ to_upload,
    (plan_uploads md5 open_rb s3api_list files bucket prefix verbose).2 = Ok to_upload →
    (dest_key prefix rel_key, path) ∉ to_upload.
Proof.
  intros Hlist Hetag Hremote to_upload Hplan.
  apply plan_uploads_Ok in Hplan as (objects' & Hlist' & _ & ->).
  rewrite Hlist in Hlist'. injection Hlist' as <-.
  intros (rel' & etag' & _ & _ & Hetag' & Hne)%elem_of_changed.
  rewrite Hetag in Hetag'. injection Hetag' as <-. by rewrite Hremote in Hne.
Qed.

Lemma unchanged_file_is_not_planned_witness :
  (λ _ : list string, Some [("p/a.txt", Demo.quoted "0361")]) (list_cmd "bkt" "p")
    = Some [("p/a.txt", Demo.quoted "0361")]
  ∧ get_local_etag Demo.md5 Demo.open_rb ["r"; "a.txt"] default_chunk_size
    = Ok (Some "0361")
  ∧ fill_etags [("p/a.txt", Demo.quoted "0361")] ∅ !! dest_key "p" "a.txt" = Some "0361"
  ∧ (plan_uploads Demo.md5 Demo.open_rb (λ _, Some [("p/a.txt", Demo.quoted "0361")])
       [("a.txt", ["r"; "a.txt"])] "bkt" "p" false).2 = Ok []
  ∧ (dest_key "p" "a.txt", ["r"; "a.txt"]) ∉ ([] : list (string * Path)).
Proof.
  split; [reflexivity|]. split; [reflexivity|]. split; [reflexivity|].
  split; [reflexivity|].
  exact (unchanged_file_is_not_planned Demo.md5 Demo.open_rb
           (λ _, Some [("p/a.txt", Demo.quoted "0361")])
           [("a.txt", ["r"; "a.txt"])] "bkt" "p" false
           [("p/a.txt", Demo.quoted "0361")] "a.txt" ["r"; "a.txt"] "0361"
           eq_refl eq_refl eq_refl [] eq_refl).
Defined.

(** X15: a plan keeps the order of the walk and plans no entry twice: it
    is a sub-list of the entries of the walk, each under its destination
    key. *)
Theorem plan_follows_the_walk md5 open_rb s3api_list
    (files : list (string * Path)) bucket prefix verbose to_upload :
  (plan_uploads md5 open_rb s3api_list files bucket prefix verbose).2 = Ok to_upload →
  to_upload `sublist_of` map (λ entry, (dest_key prefix entry.1, entry.2)) files
  ∧ (length to_upload ≤ length files)%nat.
Proof.
  intros (objects & _ & _ & ->)%plan_uploads_Ok.
  pose proof (changed_sublist md5 open_rb prefix (fill_etags objects ∅) files) as Hsub.
  split; [done|]. apply sublist_length in Hsub. by rewrite length_map in Hsub.
Qed.

Lemma plan_follows_the_walk_witness :
  (plan_uploads Demo.md5 Demo.open_rb Demo.empty_bucket
     [("e.txt", ["r"; "e.txt"]); ("a.txt", ["r"; "a.txt"]); ("big", ["r"; "big"])]
     "bkt" "p" false).2
    = Ok [("p/a.txt", ["r"; "a.txt"]); ("p/big", ["r"; "big"])]
  ∧ [("p/a.txt", ["r"; "a.txt"]); ("p/big", ["r"; "big"])]
      `sublist_of` map (λ entry : string * Path, (dest_key "p" entry.1, entry.2))
                     [("e.txt", ["r"; "e.txt"]); ("a.txt", ["r"; "a.txt"]);
                      ("big", ["r"; "big"])]
  ∧ (length [("p/a.txt", ["r"; "a.txt"]); ("p/big", ["r"; "big"])]
     ≤ length [("e.txt", ["r"; "e.txt"]); ("a.txt", ["r"; "a.txt"]);
               ("big", ["r"; "big"])])%nat.
Proof.
  split; [reflexivity|].
  exact (plan_follows_the_walk Demo.md5 Demo.open_rb Demo.empty_bucket
           [("e.txt", ["r"; "e.txt"]); ("a.txt", ["r"; "a.txt"]); ("big", ["r"; "big"])]
           "bkt" "p" false _ eq_refl).
Defined.

(** X16: a run of [plan_uploads] that returns a plan has started the
    listing and nothing else; it has printed nothing unless verbose, and
    when verbose one line per planned entry, in the order of the plan,
    with the key and the two ETags compared. *)
Theorem plan_uploads_prints_the_plan md5 open_rb s3api_list
    (files : list (string * Path)) bucket prefix verbose to_upload :
  (plan_uploads md5 open_rb s3api_list files bucket prefix verbose).2 = Ok to_upload →
  ∃ remote_etags,
    (get_remote_etags s3api_list bucket prefix).2 = Ok remote_etags
    ∧ (plan_uploads md5 open_rb s3api_list files bucket prefix verbose).1 =
        Run (list_cmd bucket prefix)
        :: (if verbose then map (planned_line md5 open_rb remote_etags) to_upload else []).
Proof.
  intros (objects & Hlist & Hfirst & ->)%plan_uploads_Ok.
  exists (fill_etags objects ∅). unfold plan_uploads.
  rewrite fst_bind, (get_remote_etags_ok s3api_list _ _ _ Hlist). simpl.
  split; [done|]. f_equal. by apply plan_loop_lines.
Qed.

Lemma plan_uploads_prints_the_plan_witness :
  (plan_uploads Demo.md5 Demo.open_rb Demo.empty_bucket
     [("e.txt", ["r"; "e.txt"]); ("a.txt", ["r"; "a.txt"])] "bkt" "p" true).2
    = Ok [("p/a.txt", ["r"; "a.txt"])]
  ∧ ∃ remote_etags,
      (get_remote_etags Demo.empty_bucket "bkt" "p").2 = Ok remote_etags
      ∧ (plan_uploads Demo.md5 Demo.open_rb Demo.empty_bucket
           [("e.txt", ["r"; "e.txt"]); ("a.txt", ["r"; "a.txt"])] "bkt" "p" true).1 =
          Run (list_cmd "bkt" "p")
          :: map (planned_line Demo.md5 Demo.open_rb remote_etags)
                 [("p/a.txt", ["r"; "a.txt"])].
Proof.
  split; [reflexivity|].
  exact (plan_uploads_prints_the_plan Demo.md5 Demo.open_rb Demo.empty_bucket
           [("e.txt", ["r"; "e.txt"]); ("a.txt", ["r"; "a.txt"])] "bkt" "p" true _
           eq_refl).
Defined.

(** ** More on destination keys *)

(** X17: a destination key never starts with a separator, whatever the
    prefix and the relative key. *)
Theorem dest_key_has_no_leading_slash prefix rel_key :
  Str.startswith "/" (dest_key prefix rel_key) = false.
Proof.
  unfold dest_key, Str.startswith.
  set (key := if Str.truthy prefix then _ else _).
  destruct (lstrip_spec slash key) as (n & _ & Hhead).
  destruct (Str.lstrip slash key) as [|a s]; [done|]. cbn [String.prefix].
  destruct (ascii_dec "/" a) as [<-|]; [|done].
  exfalso. by apply Hhead.
Qed.

(** X18: under a non-empty prefix that does not start with a separator,
    the destination key is the prefix, a separator and the relative key,
    unchanged, so two relative keys never share a destination key. *)
Theorem dest_key_under_prefix prefix rel_key :
  prefix ≠ EmptyString → Str.startswith "/" prefix = false →
  dest_key prefix rel_key = prefix +:+ "/" +:+ rel_key
  ∧ ∀ rel_key', dest_key prefix rel_key' = dest_key prefix rel_key → rel_key' = rel_key.
Proof.
  intros Hne Hstart.
  assert (∀ r, dest_key prefix r = prefix +:+ "/" +:+ r) as Hkey.
  { intros r. unfold dest_key. destruct prefix as [|a prefix]; [done|]. simpl.
    unfold Str.startswith in Hstart. simpl in Hstart.
    destruct (Ascii.eqb_spec a slash) as [->|_]; [|done].
    by destruct prefix. }
  split; [apply Hkey|]. intros r'. rewrite !Hkey.
  intros Heq%(inj (String.app prefix)). by injection Heq.
Qed.

Lemma dest_key_under_prefix_witness :
  "site" ≠ EmptyString ∧ Str.startswith "/" "site" = false
  ∧ dest_key "site" "css/a.css" = "site" +:+ "/" +:+ "css/a.css"
  ∧ ∀ rel_key', dest_key "site" rel_key' = dest_key "site" "css/a.css" →
                rel_key' = "css/a.css".
Proof.
  assert ("site" ≠ EmptyString) as Hne by discriminate.
  split; [exact Hne|]. split; [reflexivity|].
  exact (dest_key_under_prefix "site" "css/a.css" Hne eq_refl).
Defined.

(** ** More on the walker *)

(** X19: a key is excluded exactly when one of the patterns matches it;
    in particular nothing is excluded when there is no pattern. *)
Theorem is_excluded_iff_some_pattern fnmatch rel_key excludes :
  is_excluded fnmatch rel_key excludes = true
  ↔ ∃ pattern, pattern ∈ excludes ∧ fnmatch rel_key pattern = true.
Proof.
  induction excludes as [|pattern rest IH]; simpl.
  - split; [done|]. by intros (? & ?%elem_of_nil & _).
  - destruct (fnmatch rel_key pattern) eqn:Hmatch.
    + split; [|done]. intros _. exists pattern. split; [by left|done].
    + rewrite IH. split.
      * intros (p & Hin & Hp). exists p. split; [by right|done].
      * intros (p & [->|Hin]%elem_of_cons & Hp); [congruence|]. by exists p.
Qed.

(** X20: for a source directory, [discover_files] returns exactly the
    files of the tree that have no excluded key and lie below no directory
    with an excluded key, each with its path below the source and the key
    made of its relative path. *)
Theorem discover_files_returns_the_kept_files fnmatch source_path excludes t
    rel_key path :
  (rel_key, path) ∈ discover_files fnmatch source_path (IsDir t) excludes
  ↔ ∃ rel, path = source_path ++ rel ∧ rel_key = rel_key_of rel
           ∧ file_in t rel
           ∧ ∀ q, q ≠ [] → q `prefix_of` rel →
                  is_excluded fnmatch (rel_key_of q) excludes = false.
Proof. apply discover_files_spec. Qed.

(** X21: without exclude patterns every file of the tree is returned. *)
Theorem discover_files_without_excludes fnmatch source_path t rel :
  file_in t rel →
  (rel_key_of rel, source_path ++ rel) ∈ discover_files fnmatch source_path (IsDir t) [].
Proof.
  intros Hfile. apply discover_files_spec. exists rel. by repeat split.
Qed.

Lemma discover_files_without_excludes_witness :
  file_in Demo.tree ["x"; "y"; "f"]
  ∧ (rel_key_of ["x"; "y"; "f"], ["r"] ++ ["x"; "y"; "f"])
      ∈ discover_files Demo.fnmatch ["r"] (IsDir Demo.tree) [].
Proof.
  assert (file_in Demo.tree ["x"; "y"; "f"]) as Hfile.
  { exists ["x"; "y"], "f", "y", [], ["f"]. split; [reflexivity|]. split; [|by left].
    apply (dir_at_sub "r" _ _ (Dir "x" [Dir "y" [] ["f"]] ["g"; "h"]) ["y"]); [by left|].
    apply (dir_at_sub "x" _ _ (Dir "y" [] ["f"]) []); [by left|]. constructor. }
  split; [exact Hfile|].
  exact (discover_files_without_excludes Demo.fnmatch ["r"] Demo.tree ["x"; "y"; "f"] Hfile).
Defined.

Lemma replace_removes a b s : a ≠ b → contains_char a (Str.replace a b s) = false.
Proof.
  intros Hne. induction s as [|x s IH]; [done|]. simpl. rewrite IH.
  destruct (Ascii.eqb_spec x a) as [->|Hx].
  - by destruct (Ascii.eqb_spec b a) as [->|_].
  - by destruct (Ascii.eqb_spec x a).
Qed.

(** X22: the key of a file found under a source directory holds no
    backslash: the separators of the relative path are all forward
    slashes. *)
Theorem discovered_keys_have_no_backslash fnmatch source_path excludes t rel_key path :
  (rel_key, path) ∈ discover_files fnmatch source_path (IsDir t) excludes →
  contains_char backslash rel_key = false.
Proof.
  intros (rel & _ & -> & _)%discover_files_spec.
  by apply replace_removes.
Qed.

Lemma discovered_keys_have_no_backslash_witness :
  ("w/d/f", ["r"; "w\d"; "f"])
    ∈ discover_files Demo.fnmatch ["r"] (IsDir (Dir "r" [Dir "w\d" [] ["f"]] [])) []
  ∧ contains_char backslash "w/d/f" = false.
Proof.
  assert (("w/d/f", ["r"; "w\d"; "f"])
            ∈ discover_files Demo.fnmatch ["r"] (IsDir (Dir "r" [Dir "w\d" [] ["f"]] [])) [])
    as Hin.
  { change (discover_files Demo.fnmatch ["r"] (IsDir (Dir "r" [Dir "w\d" [] ["f"]] [])) [])
      with [("w/d/f", ["r"; "w\d"; "f"])].
    left. }
  split; [exact Hin|].
  exact (discovered_keys_have_no_backslash Demo.fnmatch ["r"] []
           (Dir "r" [Dir "w\d" [] ["f"]] []) "w/d/f" ["r"; "w\d"; "f"] Hin).
Defined.

(** ** More on [sync] *)

Lemma sync_only_lists_witness :
  sync_trace
    (sync Demo.md5 Demo.open_rb Demo.empty_bucket Demo.fnmatch Demo.path_of Demo.stat
       "r" "s3://bkt/p" 4 None false ["q"] false)
    [Run (list_cmd "bkt" "p"); Printed "Uploading 1 files...";
     Printed "[1/1] Uploaded p/a.txt"]
  ∧ Forall only_lists
      [Run (list_cmd "bkt" "p"); Printed "Uploading 1 files...";
       Printed "[1/1] Uploaded p/a.txt"].
Proof.
  assert (sync_trace
            (sync Demo.md5 Demo.open_rb Demo.empty_bucket Demo.fnmatch Demo.path_of
               Demo.stat "r" "s3://bkt/p" 4 None false ["q"] false)
            [Run (list_cmd "bkt" "p"); Printed "Uploading 1 files...";
             Printed "[1/1] Uploaded p/a.txt"]) as Htrace.
  { change (sync Demo.md5 Demo.open_rb Demo.empty_bucket Demo.fnmatch Demo.path_of
              Demo.stat "r" "s3://bkt/p" 4 None false ["q"] false)
      with ([Run (list_cmd "bkt" "p"); Printed "Uploading 1 files..."],
            @Ok (list upload_call)
              [ {| u_bucket := "bkt"; u_key := "p/a.txt"; u_path := ["r"; "a.txt"];
                   u_idx := 1; u_total := 1; u_acl := None;
                   u_dryrun := false; u_verbose := false |} ]).
    exists [Printed "[1/1] Uploaded p/a.txt"]. split; [|reflexivity].
    apply (interleave_step [] (Printed "[1/1] Uploaded p/a.txt") [] [] []).
    apply interleave_done. repeat constructor. }
  split; [exact Htrace|].
  exact (sync_only_lists Demo.md5 Demo.open_rb Demo.empty_bucket Demo.fnmatch
           Demo.path_of Demo.stat "r" "s3://bkt/p" 4 None false ["q"] false _ Htrace).
Defined.

Lemma submit_from_idx i bucket total acl dryrun verbose to_upload :
  map u_idx (submit_from i bucket total acl dryrun verbose to_upload)
    = seq (i + 1) (length to_upload).
Proof.
  revert i. induction to_upload as [|[key path] rest IH]; intros i; simpl; [done|].
  f_equal. rewrite IH. f_equal; lia.
Qed.

Lemma submit_from_args i bucket total acl dryrun verbose to_upload :
  Forall (λ c, u_total c = total ∧ u_bucket c = bucket ∧ u_acl c = acl
               ∧ u_dryrun c = dryrun ∧ u_verbose c = verbose)
         (submit_from i bucket total acl dryrun verbose to_upload).
Proof.
  revert i. induction to_upload as [|[key path] rest IH]; intros i; simpl;
    constructor; [done | apply IH].
Qed.

(** X23: the calls [sync] submits are numbered 1, 2, ... in submission
    order, and each carries the number of calls as its total, the bucket
    parsed from the destination and the ACL and flags given to [sync]. *)
Theorem submitted_calls_are_numbered md5 open_rb s3api_list fnmatch path_of stat
    source dest workers acl dryrun excludes verbose bucket prefix node calls :
  (parse_s3_dest dest).2 = Ok (bucket, prefix) →
  stat (path_of source) = Some node →
  (sync md5 open_rb s3api_list fnmatch path_of stat
     source dest workers acl dryrun excludes verbose).2 = Ok calls →
  map u_idx calls = seq 1 (length calls)
  ∧ Forall (λ c, u_total c = length calls ∧ u_bucket c = bucket ∧ u_acl c = acl
                 ∧ u_dryrun c = dryrun ∧ u_verbose c = verbose) calls.
Proof.
  intros Hparse Hstat Hsync.
  destruct (sync_submits md5 open_rb s3api_list fnmatch path_of stat
              _ _ _ _ _ _ _ _ _ _ _ Hparse Hstat Hsync) as (to_upload & _ & ->).
  rewrite length_submit_from. split; [apply submit_from_idx | apply submit_from_args].
Qed.

Lemma submitted_calls_are_numbered_witness :
  (parse_s3_dest "s3://bkt/p").2 = Ok ("bkt", "p")
  ∧ Demo.stat (Demo.path_of "r") = Some (IsDir (Dir "r" [] ["q"; "a.txt"; "e.txt"]))
  ∧ (sync Demo.md5 Demo.open_rb Demo.empty_bucket Demo.fnmatch Demo.path_of Demo.stat
       "r" "s3://bkt/p" 4 (Some "public-read") true ["q"] false).2
    = Ok [ {| u_bucket := "bkt"; u_key := "p/a.txt"; u_path := ["r"; "a.txt"];
              u_idx := 1; u_total := 1; u_acl := Some "public-read";
              u_dryrun := true; u_verbose := false |} ]
  ∧ map u_idx [ {| u_bucket := "bkt"; u_key := "p/a.txt"; u_path := ["r"; "a.txt"];
                   u_idx := 1; u_total := 1; u_acl := Some "public-read";
                   u_dryrun := true; u_verbose := false |} ]
    = seq 1 1.
Proof.
  split; [reflexivity|]. split; [reflexivity|]. split; [reflexivity|].
  exact (proj1 (submitted_calls_are_numbered Demo.md5 Demo.open_rb Demo.empty_bucket
                  Demo.fnmatch Demo.path_of Demo.stat "r" "s3://bkt/p" 4
                  (Some "public-read") true ["q"] false "bkt" "p"
                  (IsDir (Dir "r" [] ["q"; "a.txt"; "e.txt"])) _
                  eq_refl eq_refl eq_refl)).
Defined.

Lemma interleave_Permutation jobs tr : interleave jobs tr → tr ≡ₚ concat jobs.
Proof.
  induction 1 as [jobs Hnil|jobs1 ev j jobs2 tr Hinter IH].
  - induction Hnil as [|j jobs -> _ IH]; [done|]. simpl. exact IH.
  - rewrite concat_app in *. simpl in *.
    rewrite IH. by rewrite Permutation_middle.
Qed.

(** X25: whatever the schedule of the pool, a run of [sync] that submits
    calls leaves its own events first and then exactly the events of the
    calls, each once, in some order; in particular the progress line of
    every call is printed. *)
Theorem every_call_reports_once md5 open_rb s3api_list fnmatch path_of stat
    source dest workers acl dryrun excludes verbose own calls tr :
  sync md5 open_rb s3api_list fnmatch path_of stat
    source dest workers acl dryrun excludes verbose = (own, Ok calls) →
  sync_trace (sync md5 open_rb s3api_list fnmatch path_of stat
                source dest workers acl dryrun excludes verbose) tr →
  ∃ sched,
    tr = own ++ sched
    ∧ sched ≡ₚ concat (map (λ c, (run_call c).1) calls)
    ∧ ∀ c, c ∈ calls → Printed (uploaded_line (u_idx c) (u_total c) (u_key c)) ∈ sched.
Proof.
  intros Hsync. rewrite Hsync. simpl. intros (sched & Hinter & ->).
  exists sched. split; [done|].
  apply interleave_Permutation in Hinter. split; [done|].
  intros c Hc. rewrite Hinter. apply elem_of_concat_list.
  exists (run_call c).1. split; [apply list_elem_of_fmap; by exists c|].
  unfold run_call, upload_file. destruct (u_verbose c); simpl; [right|]; left.
Qed.

Lemma every_call_reports_once_witness :
  sync Demo.md5 Demo.open_rb Demo.empty_bucket Demo.fnmatch Demo.path_of Demo.stat
    "r" "s3://bkt/p" 4 None false ["q"] false
  = ([Run (list_cmd "bkt" "p"); Printed "Uploading 1 files..."],
     Ok [ {| u_bucket := "bkt"; u_key := "p/a.txt"; u_path := ["r"; "a.txt"];
             u_idx := 1; u_total := 1; u_acl := None;
             u_dryrun := false; u_verbose := false |} ])
  ∧ ∃ sched,
      [Run (list_cmd "bkt" "p"); Printed "Uploading 1 files...";
       Printed "[1/1] Uploaded p/a.txt"]
      = [Run (list_cmd "bkt" "p"); Printed "Uploading 1 files..."] ++ sched.
Proof.
  split; [reflexivity|].
  assert (sync_trace
            (sync Demo.md5 Demo.open_rb Demo.empty_bucket Demo.fnmatch Demo.path_of
               Demo.stat "r" "s3://bkt/p" 4 None false ["q"] false)
            [Run (list_cmd "bkt" "p"); Printed "Uploading 1 files...";
             Printed "[1/1] Uploaded p/a.txt"]) as Htrace.
  { change (sync Demo.md5 Demo.open_rb Demo.empty_bucket Demo.fnmatch Demo.path_of
              Demo.stat "r" "s3://bkt/p" 4 None false ["q"] false)
      with ([Run (list_cmd "bkt" "p"); Printed "Uploading 1 files..."],
            @Ok (list upload_call)
              [ {| u_bucket := "bkt"; u_key := "p/a.txt"; u_path := ["r"; "a.txt"];
                   u_idx := 1; u_total := 1; u_acl := None;
                   u_dryrun := false; u_verbose := false |} ]).
    exists [Printed "[1/1] Uploaded p/a.txt"]. split; [|reflexivity].
    apply (interleave_step [] (Printed "[1/1] Uploaded p/a.txt") [] [] []).
    apply interleave_done. repeat constructor. }
  destruct (every_call_reports_once Demo.md5 Demo.open_rb Demo.empty_bucket Demo.fnmatch
              Demo.path_of Demo.stat "r" "s3://bkt/p" 4 None false ["q"] false _ _ _
              eq_refl Htrace) as (sched & Htr & _).
  exists sched. exact Htr.
Defined.

(** X27: once the plan is made, [sync] adds one line to what planning
    printed: that all files are up to date when the plan is empty, and
    otherwise the number of files to upload.  For an empty plan it submits
    nothing; otherwise it submits one call per planned entry, unless
    [workers] is 0 or less: the pool then refuses to start with a
    [ValueError], after the line is printed, and nothing is submitted. *)
Theorem sync_reports_the_plan md5 open_rb s3api_list fnmatch path_of stat
    source dest workers acl dryrun excludes verbose bucket prefix node to_upload :
  (parse_s3_dest dest).2 = Ok (bucket, prefix) →
  stat (path_of source) = Some node →
  (plan_uploads md5 open_rb s3api_list
     (discover_files fnmatch (path_of source) node excludes) bucket prefix verbose).2
    = Ok to_upload →
  sync md5 open_rb s3api_list fnmatch path_of stat source dest workers acl dryrun excludes verbose
  = ((plan_uploads md5 open_rb s3api_list
        (discover_files fnmatch (path_of source) node excludes) bucket prefix verbose).1
     ++ [Printed (match to_upload with
                  | [] => "All files are up to date."
                  | _ => "Uploading " +:+ Str.of_nat (length to_upload) +:+ " files..."
                  end)],
     match to_upload with
     | [] => Ok []
     | _ =>
         if workers <=? 0 then Err ValueError
         else Ok (submit_from 0 bucket (length to_upload) acl dryrun verbose to_upload)
     end).
Proof.
  intros Hparse Hstat Hplan.
  rewrite (sync_proceeds md5 open_rb s3api_list fnmatch path_of stat
             _ _ _ _ _ _ _ _ _ _ Hparse Hstat).
  destruct (plan_uploads _ _ _ _ _ _ _) as [t r]. simpl in Hplan. subst r.
  unfold bind at 1. destruct to_upload as [|entry rest]; [done|].
  unfold thread_pool. by destruct (workers <=? 0).
Qed.

Lemma sync_reports_the_plan_witness :
  (parse_s3_dest "s3://bkt/p").2 = Ok ("bkt", "p")
  ∧ Demo.stat (Demo.path_of "r") = Some (IsDir (Dir "r" [] ["q"; "a.txt"; "e.txt"]))
  ∧ (plan_uploads Demo.md5 Demo.open_rb Demo.empty_bucket
       (discover_files Demo.fnmatch (Demo.path_of "r")
          (IsDir (Dir "r" [] ["q"; "a.txt"; "e.txt"])) ["q"]) "bkt" "p" false).2
    = Ok [("p/a.txt", ["r"; "a.txt"])]
  ∧ sync Demo.md5 Demo.open_rb Demo.empty_bucket Demo.fnmatch Demo.path_of Demo.stat
      "r" "s3://bkt/p" 4 None false ["q"] false
    = ([Run (list_cmd "bkt" "p")] ++ [Printed "Uploading 1 files..."],
       Ok [ {| u_bucket := "bkt"; u_key := "p/a.txt"; u_path := ["r"; "a.txt"];
               u_idx := 1; u_total := 1; u_acl := None;
               u_dryrun := false; u_verbose := false |} ])
  ∧ sync Demo.md5 Demo.open_rb Demo.empty_bucket Demo.fnmatch Demo.path_of Demo.stat
      "r" "s3://bkt/p" 0 None false ["q"] false
    = ([Run (list_cmd "bkt" "p")] ++ [Printed "Uploading 1 files..."], Err ValueError).
Proof.
  split; [reflexivity|]. split; [reflexivity|]. split; [reflexivity|]. split.
  - exact (sync_reports_the_plan Demo.md5 Demo.open_rb Demo.empty_bucket Demo.fnmatch
             Demo.path_of Demo.stat "r" "s3://bkt/p" 4 None false ["q"] false
             "bkt" "p" (IsDir (Dir "r" [] ["q"; "a.txt"; "e.txt"]))
             [("p/a.txt", ["r"; "a.txt"])] eq_refl eq_refl eq_refl).
  - exact (sync_reports_the_plan Demo.md5 Demo.open_rb Demo.empty_bucket Demo.fnmatch
             Demo.path_of Demo.stat "r" "s3://bkt/p" 0 None false ["q"] false
             "bkt" "p" (IsDir (Dir "r" [] ["q"; "a.txt"; "e.txt"]))
             [("p/a.txt", ["r"; "a.txt"])] eq_refl eq_refl eq_refl).
Defined.

(** ** Two runs of the planner *)

Lemma get_local_etag_no_quote md5 open_rb path cs etag :
  get_local_etag md5 open_rb path cs = Ok (Some etag) →
  contains_char dquote etag = false.
Proof.
  intros Hetag.
  destruct (get_local_etag_forms md5 open_rb path cs etag Hetag)
    as [[bs ->]|(bs & n & ->)].
  - by apply hexlify_chars.
  - rewrite !contains_char_app, hexlify_chars, of_nat_no_quote by done. done.
Qed.

(** X26: two runs of [plan_uploads] over the same readable files, whose
    destination keys are distinct: when the store lists each uploaded
    object under its key with the fingerprint of its content in quotes,
    and the second listing is the first one followed by the objects of the
    first plan, the second run returns the empty plan. *)
Theorem second_plan_uploads_is_empty md5 open_rb s3api_list1 s3api_list2 store_etag
    (files : list (string * Path)) bucket prefix verbose1 verbose2 objects to_upload :
  NoDup (map (λ entry, dest_key prefix entry.1) files) →
  (∀ rel_key path, (rel_key, path) ∈ files →
     ∃ content etag,
       open_rb path = Some content
       ∧ get_local_etag md5 open_rb path default_chunk_size = Ok (Some etag)
       ∧ store_etag content = String dquote (etag +:+ String dquote EmptyString)) →
  s3api_list1 (list_cmd bucket prefix) = Some objects →
  (plan_uploads md5 open_rb s3api_list1 files bucket prefix verbose1).2 = Ok to_upload →
  s3api_list2 (list_cmd bucket prefix)
    = Some (listing_after store_etag open_rb to_upload objects) →
  (plan_uploads md5 open_rb s3api_list2 files bucket prefix verbose2).2 = Ok [].
Proof.
  intros Hnodup Hstore Hlist1 Hplan1 Hlist2.
  assert (first_unreadable open_rb files = None) as Hreadable.
  { apply first_unreadable_None. intros r p Hin.
    destruct (Hstore r p Hin) as (content & _ & Hopen & _). by rewrite Hopen. }
  rewrite (plan_uploads_result md5 open_rb s3api_list1 _ _ _ _ objects Hlist1),
    Hreadable in Hplan1. injection Hplan1 as <-.
  rewrite (plan_uploads_result md5 open_rb s3api_list2 _ _ _ _ _ Hlist2), Hreadable.
  f_equal. apply second_run_plans_nothing; [done|].
  intros r p Hin. destruct (Hstore r p Hin) as (content & etag & Hopen & Hetag & Hquoted).
  exists content. split; [done|]. rewrite Hetag, Hquoted. do 2 f_equal. symmetry.
  apply strip_quoted. by apply (get_local_etag_no_quote md5 open_rb p default_chunk_size).
Qed.

Lemma second_plan_uploads_is_empty_witness :
  NoDup (map (λ entry : string * Path, dest_key "p" entry.1) [("a.txt", ["r"; "a.txt"])])
  ∧ (∀ rel_key path, (rel_key, path) ∈ [("a.txt", ["r"; "a.txt"])] →
       ∃ content etag,
         Demo.open_rb path = Some content
         ∧ get_local_etag Demo.md5 Demo.open_rb path default_chunk_size = Ok (Some etag)
         ∧ Demo.quoted (hexlify (Demo.md5 content))
           = String dquote (etag +:+ String dquote EmptyString))
  ∧ Demo.empty_bucket (list_cmd "bkt" "p") = Some []
  ∧ (plan_uploads Demo.md5 Demo.open_rb Demo.empty_bucket
       [("a.txt", ["r"; "a.txt"])] "bkt" "p" false).2
    = Ok [("p/a.txt", ["r"; "a.txt"])]
  ∧ (plan_uploads Demo.md5 Demo.open_rb
       (λ _, Some (listing_after (λ content, Demo.quoted (hexlify (Demo.md5 content)))
                     Demo.open_rb [("p/a.txt", ["r"; "a.txt"])] []))
       [("a.txt", ["r"; "a.txt"])] "bkt" "p" false).2
    = Ok [].
Proof.
  assert (NoDup (map (λ entry : string * Path, dest_key "p" entry.1)
                     [("a.txt", ["r"; "a.txt"])])) as Hnodup.
  { apply NoDup_cons. split; [by intros ?%elem_of_nil | apply NoDup_nil_2]. }
  assert (∀ rel_key path, (rel_key, path) ∈ [("a.txt", ["r"; "a.txt"])] →
            ∃ content etag,
              Demo.open_rb path = Some content
              ∧ get_local_etag Demo.md5 Demo.open_rb path default_chunk_size
                = Ok (Some etag)
              ∧ Demo.quoted (hexlify (Demo.md5 content))
                = String dquote (etag +:+ String dquote EmptyString)) as Hstore.
  { intros rel_key path Hin.
    apply elem_of_cons in Hin as [Hin|Hin]; [|by apply elem_of_nil in Hin].
    injection Hin as -> ->. by exists [Demo.a; Demo.a; Demo.a], "0361". }
  split; [exact Hnodup|]. split; [exact Hstore|]. split; [reflexivity|].
  split; [reflexivity|].
  exact (second_plan_uploads_is_empty Demo.md5 Demo.open_rb Demo.empty_bucket
           (λ _, Some (listing_after (λ content, Demo.quoted (hexlify (Demo.md5 content)))
                         Demo.open_rb [("p/a.txt", ["r"; "a.txt"])] []))
           (λ content, Demo.quoted (hexlify (Demo.md5 content)))
           [("a.txt", ["r"; "a.txt"])] "bkt" "p" false false []
           [("p/a.txt", ["r"; "a.txt"])] Hnodup Hstore eq_refl eq_refl eq_refl).
Defined.
